(** * FletCodeField: the editing engine of [CodeField.py]

    A shallow embedding of the [CodeField] control (src/CodeField.py): the
    key translator [_parse_letter], the text buffer and its cursor
    ([type_point]), the navigation and deletion branches of
    [on_keyboard_input] and the render step [_update_controls], followed by
    the properties of the specification that were checked against it. *)

From Stdlib Require Import ZArith List Lia Bool Ascii String.
From stdpp Require Import base numbers option list gmap.

Local Open Scope Z_scope.

(** ** Python strings

    A Python [str] is a sequence of Unicode code points, and [len] counts
    code points; the default shift mapping holds two characters outside
    ASCII, so a code point is a number and a string is a list of them. *)

Abbreviation str := (list N).

(** An ASCII literal of the source, as a [str]. *)
Definition pystr (s : string) : str := N_of_ascii <$> list_ascii_of_string s.

Definition NEWLINE : str := [10%N].
Definition SPACE : str := [32%N].
Definition BACKTICK : str := [96%N].
Definition BACKSLASH : str := [92%N].

(** [len(s)] *)
Definition len {A} (s : list A) : Z := Z.of_nat (length s).

Module Py.

(** The bound of a slice [s[:k]] or [s[k:]]: a negative bound counts from
    the end, and every bound is clipped to [0 .. len s]. *)
Definition slice_bound (n k : Z) : nat :=
  Z.to_nat (if k <? 0 then Z.max 0 (k + n) else Z.min k n).

(** [s[:k]] *)
Definition slice_to (s : str) (k : Z) : str := take (slice_bound (len s) k) s.

(** [s[k:]] *)
Definition slice_from (s : str) (k : Z) : str := drop (slice_bound (len s) k) s.

(** [s.startswith(p)] *)
Fixpoint startswith (s p : str) {struct p} : bool :=
  match p, s with
  | [], _ => true
  | _ :: _, [] => false
  | a :: p', b :: s' => bool_decide (a = b) && startswith s' p'
  end.

(** [str.find] and [str.rfind] return an index or -1. *)
Definition index_or_minus1 (o : option nat) : Z :=
  match o with Some i => Z.of_nat i | None => -1 end.

Fixpoint find_index (sub s : str) : option nat :=
  if startswith s sub then Some 0%nat
  else match s with
       | [] => None
       | _ :: s' => S <$> find_index sub s'
       end.

Fixpoint rfind_index (sub s : str) : option nat :=
  match s with
  | [] => if startswith [] sub then Some 0%nat else None
  | _ :: s' =>
      match rfind_index sub s' with
      | Some i => Some (S i)
      | None => if startswith s sub then Some 0%nat else None
      end
  end.

(** [s.find(sub)] *)
Definition find (s sub : str) : Z := index_or_minus1 (find_index sub s).

(** [s.rfind(sub)] *)
Definition rfind (s sub : str) : Z := index_or_minus1 (rfind_index sub s).

(** [s.replace(old, new)] for a non-empty [old] (the source only calls it
    with the literals "`" and "Numpad "): occurrences are found from the
    left and do not overlap. [skip] counts the characters of a matched
    occurrence that are still to be dropped. *)
Fixpoint replace_go (old new : str) (skip : nat) (s : str) : str :=
  match s with
  | [] => []
  | c :: s' =>
      match skip with
      | S k => replace_go old new k s'
      | O =>
          if startswith s old
          then new ++ replace_go old new (length old - 1) s'
          else c :: replace_go old new 0 s'
      end
  end.

Definition replace (s old new : str) : str := replace_go old new 0 s.

(** [s.split(sep)] for a non-empty [sep] (the source splits on "\n"):
    [cur] is the piece under construction. *)
Fixpoint split_go (sep : str) (skip : nat) (cur s : str) : list str :=
  match s with
  | [] => [cur]
  | c :: s' =>
      match skip with
      | S k => split_go sep k cur s'
      | O =>
          if startswith s sep
          then cur :: split_go sep (length sep - 1) [] s'
          else split_go sep 0 (cur ++ [c]) s'
      end
  end.

Definition split (s sep : str) : list str := split_go sep 0 [] s.

(** [s * n]: no copy at all for [n <= 0]. *)
Definition repeat (s : str) (n : Z) : str := mjoin (replicate (Z.to_nat n) s).

(** [range(a, b)] *)
Definition range (a b : Z) : list Z :=
  (fun i => a + Z.of_nat i) <$> seq 0 (Z.to_nat (b - a)).

(** [range(a, b, -1)] *)
Definition range_down (a b : Z) : list Z :=
  (fun i => a - Z.of_nat i) <$> seq 0 (Z.to_nat (a - b)).

(** [for letter in word]: the one-character strings of [word], in order. *)
Definition letters (word : str) : list str := (fun c => [c]) <$> word.

(** Case mapping. [str.upper] maps every code point by Unicode's full
    upper-case mapping, which may give several code points. On ASCII the
    mapping is written out; the rest of the Unicode table is a parameter.
    [str.lower] does the same with the lower-case mapping, except for a
    capital sigma at the end of a word, which cannot arise in a string of
    at most one character: the source lowers no longer string. *)
Class UnicodeCase := {
  to_upper_full : N -> str;
  to_lower_full : N -> str
}.

Definition upper_char `{UnicodeCase} (c : N) : str :=
  if (97 <=? c)%N && (c <=? 122)%N then [(c - 32)%N]
  else if (c <? 128)%N then [c]
  else to_upper_full c.

Definition lower_char `{UnicodeCase} (c : N) : str :=
  if (65 <=? c)%N && (c <=? 90)%N then [(c + 32)%N]
  else if (c <? 128)%N then [c]
  else to_lower_full c.

(** [s.upper()] *)
Definition upper `{UnicodeCase} (s : str) : str := s ≫= upper_char.

(** [s.lower()] *)
Definition lower `{UnicodeCase} (s : str) : str := s ≫= lower_char.

End Py.

(** ** The control *)

(** The widgets of the control that are repainted with [update()]. *)
Inductive Widget :=
| CodeMarkdown
| LanguageText
| LineNumbers
| MarkdownContainer.

(** What the host observes: the two callbacks of the control and the
    repaint requests, in the order they happen. *)
Inductive Effect :=
| OnFocus (focus : bool)
| OnChange
| Update (w : Widget).

(** [flet.KeyboardEvent], with the attributes the control reads. *)
Record KeyboardEvent := {
  key : str;
  ctrl : bool;
  shift : bool
}.

(** The attributes of a [CodeField] instance. The attributes that are only
    handed on to flet as styling (theme, colours, font, font size, letter
    spacing) are left out; [code_markdown_value], [language_text_value],
    [line_numbers_controls] and [container_border] stand for
    [self.code_markdown.value], [self.language_text.value], the [value]s of
    [self.line_numbers.controls] and whether
    [self.code_markdown_container.border] is set. *)
Record CodeField := {
  text : str;
  show_language_text : bool;
  show_line_numbers : bool;
  allow_pasting : bool;
  show_focus_border : bool;
  tab_spacing : Z;
  language : str;
  custom_shift_mapping : gmap str str;
  is_caps : bool;
  focused : bool;
  type_point : Z;
  code_markdown_value : str;
  language_text_value : str;
  line_numbers_controls : list Z;
  container_border : bool;
  effects : list Effect
}.

(** Attribute assignments. *)
Definition set_text (v : str) (self : CodeField) : CodeField :=
  {| text := v;
     show_language_text := show_language_text self;
     show_line_numbers := show_line_numbers self;
     allow_pasting := allow_pasting self;
     show_focus_border := show_focus_border self;
     tab_spacing := tab_spacing self;
     language := language self;
     custom_shift_mapping := custom_shift_mapping self;
     is_caps := is_caps self;
     focused := focused self;
     type_point := type_point self;
     code_markdown_value := code_markdown_value self;
     language_text_value := language_text_value self;
     line_numbers_controls := line_numbers_controls self;
     container_border := container_border self;
     effects := effects self |}.

Definition set_allow_pasting (v : bool) (self : CodeField) : CodeField :=
  {| text := text self;
     show_language_text := show_language_text self;
     show_line_numbers := show_line_numbers self;
     allow_pasting := v;
     show_focus_border := show_focus_border self;
     tab_spacing := tab_spacing self;
     language := language self;
     custom_shift_mapping := custom_shift_mapping self;
     is_caps := is_caps self;
     focused := focused self;
     type_point := type_point self;
     code_markdown_value := code_markdown_value self;
     language_text_value := language_text_value self;
     line_numbers_controls := line_numbers_controls self;
     container_border := container_border self;
     effects := effects self |}.

Definition set_is_caps (v : bool) (self : CodeField) : CodeField :=
  {| text := text self;
     show_language_text := show_language_text self;
     show_line_numbers := show_line_numbers self;
     allow_pasting := allow_pasting self;
     show_focus_border := show_focus_border self;
     tab_spacing := tab_spacing self;
     language := language self;
     custom_shift_mapping := custom_shift_mapping self;
     is_caps := v;
     focused := focused self;
     type_point := type_point self;
     code_markdown_value := code_markdown_value self;
     language_text_value := language_text_value self;
     line_numbers_controls := line_numbers_controls self;
     container_border := container_border self;
     effects := effects self |}.

Definition set_focused (v : bool) (self : CodeField) : CodeField :=
  {| text := text self;
     show_language_text := show_language_text self;
     show_line_numbers := show_line_numbers self;
     allow_pasting := allow_pasting self;
     show_focus_border := show_focus_border self;
     tab_spacing := tab_spacing self;
     language := language self;
     custom_shift_mapping := custom_shift_mapping self;
     is_caps := is_caps self;
     focused := v;
     type_point := type_point self;
     code_markdown_value := code_markdown_value self;
     language_text_value := language_text_value self;
     line_numbers_controls := line_numbers_controls self;
     container_border := container_border self;
     effects := effects self |}.

Definition assign_type_point (v : Z) (self : CodeField) : CodeField :=
  {| text := text self;
     show_language_text := show_language_text self;
     show_line_numbers := show_line_numbers self;
     allow_pasting := allow_pasting self;
     show_focus_border := show_focus_border self;
     tab_spacing := tab_spacing self;
     language := language self;
     custom_shift_mapping := custom_shift_mapping self;
     is_caps := is_caps self;
     focused := focused self;
     type_point := v;
     code_markdown_value := code_markdown_value self;
     language_text_value := language_text_value self;
     line_numbers_controls := line_numbers_controls self;
     container_border := container_border self;
     effects := effects self |}.

Definition set_code_markdown_value (v : str) (self : CodeField) : CodeField :=
  {| text := text self;
     show_language_text := show_language_text self;
     show_line_numbers := show_line_numbers self;
     allow_pasting := allow_pasting self;
     show_focus_border := show_focus_border self;
     tab_spacing := tab_spacing self;
     language := language self;
     custom_shift_mapping := custom_shift_mapping self;
     is_caps := is_caps self;
     focused := focused self;
     type_point := type_point self;
     code_markdown_value := v;
     language_text_value := language_text_value self;
     line_numbers_controls := line_numbers_controls self;
     container_border := container_border self;
     effects := effects self |}.

Definition set_language_text_value (v : str) (self : CodeField) : CodeField :=
  {| text := text self;
     show_language_text := show_language_text self;
     show_line_numbers := show_line_numbers self;
     allow_pasting := allow_pasting self;
     show_focus_border := show_focus_border self;
     tab_spacing := tab_spacing self;
     language := language self;
     custom_shift_mapping := custom_shift_mapping self;
     is_caps := is_caps self;
     focused := focused self;
     type_point := type_point self;
     code_markdown_value := code_markdown_value self;
     language_text_value := v;
     line_numbers_controls := line_numbers_controls self;
     container_border := container_border self;
     effects := effects self |}.

Definition set_line_numbers_controls (v : list Z) (self : CodeField) : CodeField :=
  {| text := text self;
     show_language_text := show_language_text self;
     show_line_numbers := show_line_numbers self;
     allow_pasting := allow_pasting self;
     show_focus_border := show_focus_border self;
     tab_spacing := tab_spacing self;
     language := language self;
     custom_shift_mapping := custom_shift_mapping self;
     is_caps := is_caps self;
     focused := focused self;
     type_point := type_point self;
     code_markdown_value := code_markdown_value self;
     language_text_value := language_text_value self;
     line_numbers_controls := v;
     container_border := container_border self;
     effects := effects self |}.

Definition set_container_border (v : bool) (self : CodeField) : CodeField :=
  {| text := text self;
     show_language_text := show_language_text self;
     show_line_numbers := show_line_numbers self;
     allow_pasting := allow_pasting self;
     show_focus_border := show_focus_border self;
     tab_spacing := tab_spacing self;
     language := language self;
     custom_shift_mapping := custom_shift_mapping self;
     is_caps := is_caps self;
     focused := focused self;
     type_point := type_point self;
     code_markdown_value := code_markdown_value self;
     language_text_value := language_text_value self;
     line_numbers_controls := line_numbers_controls self;
     container_border := v;
     effects := effects self |}.

(** A callback or an [update()] call: one more observed effect. *)
Definition emit (e : Effect) (self : CodeField) : CodeField :=
  {| text := text self;
     show_language_text := show_language_text self;
     show_line_numbers := show_line_numbers self;
     allow_pasting := allow_pasting self;
     show_focus_border := show_focus_border self;
     tab_spacing := tab_spacing self;
     language := language self;
     custom_shift_mapping := custom_shift_mapping self;
     is_caps := is_caps self;
     focused := focused self;
     type_point := type_point self;
     code_markdown_value := code_markdown_value self;
     language_text_value := language_text_value self;
     line_numbers_controls := line_numbers_controls self;
     container_border := container_border self;
     effects := effects self ++ [e] |}.

(** The shift mapping of the UK layout that [__init__] installs when the
    caller passes none. The pound sign is U+00A3 and the not sign U+00AC. *)
Definition uk_shift_mapping : gmap str str :=
  list_to_map
    [ (pystr "1", pystr "!"); (pystr "2", [34%N]); (pystr "3", [163%N]);
      (pystr "4", pystr "$"); (pystr "5", pystr "%"); (pystr "6", pystr "^");
      (pystr "7", pystr "&"); (pystr "8", pystr "*"); (pystr "9", pystr "(");
      (pystr "0", pystr ")"); (pystr "-", pystr "_"); (pystr "=", pystr "+");
      (pystr "[", pystr "{"); (pystr "]", pystr "}"); (pystr ";", pystr ":");
      (pystr "'", pystr "@"); (pystr "#", pystr "~"); (pystr ",", pystr "<");
      (pystr ".", pystr ">"); (pystr "/", pystr "?"); (BACKTICK, [172%N]);
      (BACKSLASH, pystr "|") ].

(** [CodeField.__init__], with the arguments kept in the model. *)
Definition __init__ (text : str) (show_language_text show_line_numbers
    allow_pasting show_focus_border : bool) (tab_spacing : Z) (language : str)
    (custom_shift_mapping : option (gmap str str)) : CodeField :=
  {| text := text;
     show_language_text := show_language_text;
     show_line_numbers := show_line_numbers;
     allow_pasting := allow_pasting;
     show_focus_border := show_focus_border;
     tab_spacing := tab_spacing;
     language := language;
     custom_shift_mapping :=
       match custom_shift_mapping with
       | None => uk_shift_mapping
       | Some m => m
       end;
     is_caps := false;
     focused := false;
     type_point := len text;
     code_markdown_value := [];
     language_text_value := [];
     line_numbers_controls := [];
     container_border := false;
     effects := [] |}.

(** The control with every argument at its default. *)
Definition default_CodeField : CodeField :=
  __init__ (pystr "print('hello world')") true true true true 4 (pystr "python") None.

(** ** The methods of [CodeField] *)

Section Methods.
Context `{Py.UnicodeCase}.

(** [_code]: surrounds text in a code block. *)
Definition _code (self : CodeField) (text : str) : str :=
  let filtered := Py.replace text BACKTICK (BACKSLASH ++ BACKTICK) in
  pystr "```" ++ language self ++ NEWLINE ++ filtered ++ NEWLINE ++ pystr "```".

(** [_update_controls]: the markdown value, the language text and the line
    numbers are recomputed from [self.text] and repainted; a part that is
    switched off is left as it is. *)
Definition _update_controls (self : CodeField) : CodeField :=
  (* update code markdown *)
  let self :=
    set_code_markdown_value
      (_code self (if bool_decide (text self ≠ []) then text self else SPACE)) self in
  let self := emit (Update CodeMarkdown) self in
  (* update language text *)
  let self :=
    if show_language_text self
    then emit (Update LanguageText)
           (set_language_text_value (Py.upper (language self)) self)
    else self in
  (* update line numbers *)
  if show_line_numbers self
  then
    let lineCount := len (Py.split (text self) NEWLINE) + 1 in
    emit (Update LineNumbers)
      (set_line_numbers_controls (Py.range 1 lineCount) self)
  else self.

(** [_parse_letter]: parse a key to a proper letter. *)
Definition _parse_letter (self : CodeField) (letter : str) (isShift : bool) : str :=
  (* handle enter *)
  let letter := if bool_decide (letter = pystr "Enter") then NEWLINE else letter in
  (* handle secondary keys *)
  let letter :=
    if isShift
    then match custom_shift_mapping self !! letter with
         | Some mapped => mapped
         | None => letter
         end
    else letter in
  (* handle keypad *)
  let letter :=
    if Py.startswith letter (pystr "Numpad")
    then Py.replace letter (pystr "Numpad ") []
    else letter in
  if bool_decide (letter = pystr "Decimal") then pystr "."
  else if bool_decide (letter = pystr "Add") then pystr "+"
  else if bool_decide (letter = pystr "Subtract") then pystr "-"
  else if bool_decide (letter = pystr "Divide") then pystr "/"
  else if bool_decide (letter = pystr "Multiply") then pystr "*"
  else if bool_decide (letter = pystr "Num Lock") then []
  else if 1 <? len letter then []
  else if is_caps self || isShift then Py.upper letter else Py.lower letter.

(** [set_focus] *)
Definition set_focus (self : CodeField) (focus : bool) : CodeField :=
  let self := set_focused focus self in
  let self := emit (OnFocus focus) self in
  let self := set_container_border (focus && show_focus_border self) self in
  emit (Update MarkdownContainer) self.

(** [set_type_point] *)
Definition set_type_point (self : CodeField) (to : Z) : CodeField :=
  assign_type_point (Z.max 0 (Z.min (len (text self)) to)) self.

(** [insert_letter] *)
Definition insert_letter (self : CodeField) (letter : str) : CodeField :=
  if bool_decide (letter = []) then self
  else if 1 <? len letter then self
  else
    let self :=
      set_text (Py.slice_to (text self) (type_point self) ++ letter
                ++ Py.slice_from (text self) (type_point self)) self in
    let self := set_type_point self (type_point self + 1) in
    let self := _update_controls self in
    emit OnChange self.

(** [insert_word] *)
Definition insert_word (self : CodeField) (word : str) : CodeField :=
  foldl insert_letter self (Py.letters word).

(** [remove_letter] *)
Definition remove_letter (self : CodeField) : CodeField :=
  let self :=
    set_text (Py.slice_to (text self) (type_point self - 1)
              ++ Py.slice_from (text self) (type_point self)) self in
  let self := set_type_point self (type_point self - 1) in
  let self := _update_controls self in
  emit OnChange self.

(** [get_text_up_to_point] *)
Definition get_text_up_to_point (self : CodeField) : str :=
  Py.slice_to (text self) (type_point self).

(** [get_text_after_point] *)
Definition get_text_after_point (self : CodeField) : str :=
  Py.slice_from (text self) (type_point self).

(** [on_container_click] *)
Definition on_container_click (self : CodeField) : CodeField :=
  set_focus self (negb (focused self)).

(** [on_keyboard_input]. [clipboard] is what [self.page.get_clipboard]
    returns when the event arrives. The branches that end in [return] are
    the arms of the conditional; the [Tab] branch does not return, so the
    tests that follow it run on the state it leaves. *)
Definition on_keyboard_input (clipboard : str) (self : CodeField)
    (event : KeyboardEvent) : CodeField :=
  (* if not listening for keyboard input, do nothing *)
  if negb (focused self) then self
  else
    let letter := key event in
    (* handle backspace *)
    if bool_decide (letter = pystr "Backspace") then
      if negb (ctrl event) then remove_letter self
      else
        let locationOfSpace := Py.rfind (get_text_up_to_point self) SPACE in
        foldl (fun self _ => remove_letter self) self
          (Py.range_down (type_point self)
             (if bool_decide (locationOfSpace ≠ -1) then locationOfSpace else 0))
    (* lose focus if escape is pressed *)
    else if bool_decide (letter = pystr "Escape") then set_focus self false
    (* set caps lock *)
    else if bool_decide (letter = pystr "Caps Lock") then
      set_is_caps (negb (is_caps self)) self
    (* move type_point left *)
    else if bool_decide (letter = pystr "Arrow Left") then
      if ctrl event then
        let textBeforePoint := get_text_up_to_point self in
        let spaceLocation := Py.rfind textBeforePoint SPACE in
        set_type_point self
          (if bool_decide (spaceLocation ≠ -1) then spaceLocation else 0)
      else set_type_point self (type_point self - 1)
    else
      let self :=
        if bool_decide (letter = pystr "Tab")
        then insert_word self (Py.repeat SPACE (tab_spacing self))
        else self in
      (* move type_point right *)
      if bool_decide (letter = pystr "Arrow Right") then
        if ctrl event then
          let charactersBeforePoint := len (get_text_up_to_point self) in
          let textAfterPoint := get_text_after_point self in
          let spaceLocation := Py.find textAfterPoint SPACE in
          set_type_point self
            (charactersBeforePoint
             + (if bool_decide (spaceLocation ≠ -1)
                then type_point self + spaceLocation
                else len textAfterPoint))
        else set_type_point self (type_point self + 1)
      (* move type_point up *)
      else if bool_decide (letter = pystr "Arrow Up") then
        let locationOfNewline := Py.rfind (get_text_up_to_point self) NEWLINE in
        set_type_point self
          (if bool_decide (locationOfNewline ≠ -1)
           then locationOfNewline else type_point self)
      (* move type_point down *)
      else if bool_decide (letter = pystr "Arrow Down") then
        let charactersBeforePoint := len (get_text_up_to_point self) in
        let locationOfNewline := Py.find (get_text_after_point self) NEWLINE in
        set_type_point self
          (charactersBeforePoint
           + (if bool_decide (locationOfNewline ≠ -1)
              then type_point self + locationOfNewline
              else len (get_text_after_point self)))
      (* handle pasting *)
      else if ctrl event && bool_decide (letter = pystr "V") then
        insert_word self clipboard
      else
        (* parse letter *)
        let letter := _parse_letter self letter (shift event) in
        if bool_decide (letter = []) then self
        (* update text input, considering self.type_point *)
        else insert_letter self letter.

End Methods.

(** A case table that leaves every code point outside ASCII as it is: enough
    to run the control on ASCII input. *)
Definition ascii_case : Py.UnicodeCase :=
  {| Py.to_upper_full := fun c => [c]; Py.to_lower_full := fun c => [c] |}.

(** A control on [text] with the cursor at [point], focused, otherwise as
    the constructor leaves it with its default arguments. *)
Definition editing (text : str) (point : Z) : CodeField :=
  assign_type_point point
    (set_focused true
       (__init__ text true true true true 4 (pystr "python") None)).

Definition key_event (k : string) (c s : bool) : KeyboardEvent :=
  {| key := pystr k; ctrl := c; shift := s |}.

(** ** The vocabulary of the specification *)

(** The cursor invariant of the text buffer: [0 <= cursor <= length(content)]. *)
Definition cursor_ok (self : CodeField) : Prop :=
  0 <= type_point self <= len (text self).

(** [k] is the position of the last [c] in the first [p] characters of [s]. *)
Definition last_before (c : N) (s : str) (p k : nat) : Prop :=
  (k < p)%nat /\ s !! k = Some c /\ forall j, (k < j < p)%nat -> s !! j ≠ Some c.

(** There is no [c] in the first [p] characters of [s]. *)
Definition none_before (c : N) (s : str) (p : nat) : Prop :=
  forall j, (j < p)%nat -> s !! j ≠ Some c.

(** The raw text with each backtick replaced by backslash-backtick. *)
Definition escape_backticks (s : str) : str :=
  s ≫= (fun c => if bool_decide (c = 96%N) then [92%N; 96%N] else [c]).

(** The number of newline-separated lines of a text. *)
Definition line_count (s : str) : nat :=
  S (length (filter (fun c => c = 10%N) s)).

(** The fixed symbols of the special keypad labels (section 4.1, rule 4). *)
Definition keypad_symbols : list (str * str) :=
  [ (pystr "Decimal", pystr "."); (pystr "Add", pystr "+");
    (pystr "Subtract", pystr "-"); (pystr "Divide", pystr "/");
    (pystr "Multiply", pystr "*"); (pystr "Num Lock", []) ].

Definition keypad_symbol (label : str) : option str :=
  snd <$> List.find (fun entry => bool_decide (entry.1 = label)) keypad_symbols.

(** The case mappings of ASCII. *)
Definition ascii_upper (c : N) : N :=
  if (97 <=? c)%N && (c <=? 122)%N then (c - 32)%N else c.

Definition ascii_lower (c : N) : N :=
  if (65 <=? c)%N && (c <=? 90)%N then (c + 32)%N else c.

(** The numeric-keypad prefix of a key label. *)
Definition keypad_prefix : str := pystr "Numpad ".

(** [p] occurs somewhere in [s]. *)
Definition occurs (p s : str) : Prop := exists a b, s = a ++ p ++ b.

Section Translator.
Context `{Py.UnicodeCase}.

(** Rule 1: Enter is the newline character. *)
Definition rule_enter (keyLabel : str) : str :=
  if bool_decide (keyLabel = pystr "Enter") then NEWLINE else keyLabel.

(** Rule 2: under shift, a label of the shift map is replaced by its
    shifted character. *)
Definition rule_shift (shiftHeld : bool) (shiftMap : gmap str str) (label : str) : str :=
  if shiftHeld then default label (shiftMap !! label) else label.

(** Rule 3: a label that starts with the numeric-keypad prefix loses that
    prefix, once. *)
Definition strip_keypad_prefix (label : str) : str :=
  if bool_decide (take 7 label = keypad_prefix) then drop 7 label else label.

(** The upper and lower case of one character: the ASCII mappings on
    ASCII, Unicode's full mappings elsewhere. *)
Definition upper_cased (c : N) : str :=
  if (c <? 128)%N then [ascii_upper c] else Py.to_upper_full c.

Definition lower_cased (c : N) : str :=
  if (c <? 128)%N then [ascii_lower c] else Py.to_lower_full c.

(** Rules 5 and 6: a label longer than one character gives nothing; a
    single character is upper-cased if caps is active or shift is held and
    lower-cased otherwise. *)
Definition rule_case (shiftHeld capsActive : bool) (label : str) : str :=
  match label with
  | [] => []
  | [c] => if capsActive || shiftHeld then upper_cased c else lower_cased c
  | _ :: _ :: _ => []
  end.

(** The key translator of section 4.1, rule after rule. *)
Definition translate (keyLabel : str) (shiftHeld capsActive : bool)
    (shiftMap : gmap str str) : str :=
  let label := strip_keypad_prefix (rule_shift shiftHeld shiftMap (rule_enter keyLabel)) in
  match keypad_symbol label with
  | Some symbol => symbol
  | None => rule_case shiftHeld capsActive label
  end.

(** The label after the substitutions of rules 1 and 2 carries the keypad
    prefix at most once: behind a leading prefix there is no further one. *)
Definition keypad_prefix_once (label : str) : Prop :=
  forall rest, label = keypad_prefix ++ rest -> ~ occurs keypad_prefix rest.

(** The operations on the buffer and its cursor: the primitive mutations,
    a click, and a keyboard event with the clipboard of that moment. *)
Inductive Operation :=
| Insert (letter : str)
| InsertWord (word : str)
| Delete
| SetCursor (to : Z)
| Click
| KeyPress (event : KeyboardEvent) (clipboard : str).

Definition perform (self : CodeField) (op : Operation) : CodeField :=
  match op with
  | Insert letter => insert_letter self letter
  | InsertWord word => insert_word self word
  | Delete => remove_letter self
  | SetCursor to => set_type_point self to
  | Click => on_container_click self
  | KeyPress event clipboard => on_keyboard_input clipboard self event
  end.

(** The states the control goes through, one per operation. *)
Fixpoint run (self : CodeField) (ops : list Operation) : list CodeField :=
  match ops with
  | [] => []
  | op :: ops' => let self' := perform self op in self' :: run self' ops'
  end.

End Translator.

(** The text of the word-wise examples. *)
Definition hello_world : str := pystr "hello world".

(** Settles the comparisons of a known key label with the labels the
    dispatcher tests. *)
Ltac decide_key :=
  repeat match goal with
  | |- context [bool_decide (pystr ?a = pystr ?b)] =>
      first
        [ rewrite (bool_decide_true (pystr a = pystr b)) by reflexivity
        | rewrite (bool_decide_false (pystr a = pystr b)) by (vm_compute; discriminate) ]
  end.


(** ** The life cycle and further vocabulary *)

Section Lifecycle.
Context `{Py.UnicodeCase}.

(** [did_mount]: the widgets are rendered for the first time. Binding the
    page's keyboard handler to the control and [self.page.update()] act on
    the page, outside the state of the control. *)
Definition did_mount (self : CodeField) : CodeField := _update_controls self.

(** [will_unmount]: [self.focused = False]. The assignment
    [self.on_keyboard_input = None] only replaces the attribute of the
    instance: a handler the page still holds is the method itself and finds
    the control unfocused. *)
Definition will_unmount (self : CodeField) : CodeField := set_focused false self.

(** The keyboard events the page delivers, one after the other, each with
    the clipboard of its moment. *)
Definition feed (self : CodeField) (events : list (KeyboardEvent * str)) : CodeField :=
  foldl (fun self ec => on_keyboard_input ec.2 self ec.1) self events.

End Lifecycle.

(** What [_code] is given: the text, or a space for the empty text. *)
Definition shown_text (t : str) : str :=
  match t with [] => SPACE | _ => t end.

(** The widgets show the buffer: the markdown holds the fenced text, and the
    language label and the line numbers, where they are switched on, hold
    the upper-cased language and one label per line. *)
Definition rendered `{Py.UnicodeCase} (self : CodeField) : Prop :=
  code_markdown_value self
  = pystr "```" ++ language self ++ NEWLINE
    ++ escape_backticks (shown_text (text self)) ++ NEWLINE ++ pystr "```"
  /\ (show_language_text self = true ->
      language_text_value self = Py.upper (language self))
  /\ (show_line_numbers self = true ->
      line_numbers_controls self = Z.of_nat <$> seq 1 (line_count (text self))).

(** The repaint requests of one [_update_controls]: the markdown always, the
    language label and the line numbers where they are switched on. *)
Definition repaint (self : CodeField) : list Effect :=
  [Update CodeMarkdown]
  ++ (if show_language_text self then [Update LanguageText] else [])
  ++ (if show_line_numbers self then [Update LineNumbers] else []).

(** [o] is the position of the first [c] in [s]. *)
Definition first_at (c : N) (s : str) (o : nat) : Prop :=
  s !! o = Some c /\ forall j, (j < o)%nat -> s !! j ≠ Some c.

(** The key labels the dispatcher handles before it translates a key. *)
Definition dispatched_labels : list str :=
  [ pystr "Backspace"; pystr "Escape"; pystr "Caps Lock"; pystr "Arrow Left";
    pystr "Tab"; pystr "Arrow Right"; pystr "Arrow Up"; pystr "Arrow Down" ].

(** The four arrow keys. *)
Definition arrow_labels : list str :=
  [ pystr "Arrow Left"; pystr "Arrow Right"; pystr "Arrow Up"; pystr "Arrow Down" ].

(** What an edit of the buffer leaves alone: the settings, the caps state,
    the focus and the focus border. *)
Definition settings (self : CodeField) :=
  (show_language_text self, show_line_numbers self, allow_pasting self,
   show_focus_border self, tab_spacing self, language self,
   custom_shift_mapping self, is_caps self, focused self,
   container_border self).

(** The focus border is drawn exactly when the control is focused and the
    border is switched on. *)
Definition border_shows_focus (self : CodeField) : Prop :=
  container_border self = focused self && show_focus_border self.

(** Reading an escaped text back: a backslash in front of a backtick is
    dropped. *)
Fixpoint unescape_backticks (s : str) : str :=
  match s with
  | [] => []
  | c :: rest =>
      if bool_decide (c = 92%N) && bool_decide (head rest = Some 96%N)
      then unescape_backticks rest
      else c :: unescape_backticks rest
  end.

(** A text of two lines. *)
Definition two_lines : str := pystr "a" ++ NEWLINE ++ pystr "b".

(** ** Facts about the Python primitives *)

Example slice_to_negative : Py.slice_to (pystr "abc") (-1) = pystr "ab".
Proof. reflexivity. Qed.

Example slice_from_beyond : Py.slice_from (pystr "abc") 7 = [].
Proof. reflexivity. Qed.

Example rfind_last : Py.rfind (pystr "a b c") SPACE = 3.
Proof. reflexivity. Qed.

Example find_absent : Py.find (pystr "abc") SPACE = -1.
Proof. reflexivity. Qed.

Example replace_keypad :
  Py.replace (pystr "Numpad 1") (pystr "Numpad ") [] = pystr "1".
Proof. reflexivity. Qed.

Example split_trailing_newline :
  Py.split (pystr "ab" ++ NEWLINE ++ pystr "c" ++ NEWLINE) NEWLINE
  = [pystr "ab"; pystr "c"; []].
Proof. reflexivity. Qed.

Example split_empty : Py.split [] NEWLINE = [[]].
Proof. reflexivity. Qed.

Example range_down_six : Py.range_down 11 5 = [11; 10; 9; 8; 7; 6].
Proof. reflexivity. Qed.

Lemma len_nonneg {A} (s : list A) : 0 <= len s.
Proof. unfold len. lia. Qed.

Lemma len_app {A} (s t : list A) : len (s ++ t) = len s + len t.
Proof. unfold len. rewrite length_app. lia. Qed.

Lemma slice_to_take s k : 0 <= k -> Py.slice_to s k = take (Z.to_nat k) s.
Proof.
  intros Hk. unfold Py.slice_to, Py.slice_bound, len.
  destruct (Z.ltb_spec k 0) as [?|_]; [lia|].
  destruct (Z.le_gt_cases k (Z.of_nat (length s))) as [Hle|Hgt].
  - by rewrite Z.min_l.
  - rewrite Z.min_r by lia. rewrite Nat2Z.id.
    by rewrite !take_ge by lia.
Qed.

Lemma slice_from_drop s k : 0 <= k -> Py.slice_from s k = drop (Z.to_nat k) s.
Proof.
  intros Hk. unfold Py.slice_from, Py.slice_bound, len.
  destruct (Z.ltb_spec k 0) as [?|_]; [lia|].
  destruct (Z.le_gt_cases k (Z.of_nat (length s))) as [Hle|Hgt].
  - by rewrite Z.min_l.
  - rewrite Z.min_r by lia. rewrite Nat2Z.id.
    by rewrite !drop_ge by lia.
Qed.

(** [s[:-1]] drops the last character. *)
Lemma slice_to_minus1 s : Py.slice_to s (-1) = take (length s - 1) s.
Proof.
  unfold Py.slice_to, Py.slice_bound, len. simpl.
  f_equal. lia.
Qed.

Lemma startswith_single c s : Py.startswith s [c] = true <-> head s = Some c.
Proof.
  destruct s as [|b s]; simpl; [naive_solver|].
  rewrite andb_true_r, bool_decide_eq_true. naive_solver.
Qed.

Lemma startswith_single_false c s : Py.startswith s [c] = false <-> head s ≠ Some c.
Proof.
  rewrite <- startswith_single. destruct (Py.startswith s [c]); naive_solver.
Qed.

(** [rfind] of a one-character string: the last position that holds it. *)
Lemma rfind_index_single_None c s :
  Py.rfind_index [c] s = None -> forall j, s !! j ≠ Some c.
Proof.
  induction s as [|b s IH]; intros Hr j; [by destruct j|].
  cbn [Py.rfind_index] in Hr.
  destruct (Py.rfind_index [c] s) eqn:E; [done|].
  destruct (Py.startswith (b :: s) [c]) eqn:Es; [done|].
  apply startswith_single_false in Es.
  destruct j as [|j]; simpl; [exact Es | by apply IH].
Qed.

Lemma rfind_index_single_Some c s k :
  Py.rfind_index [c] s = Some k ->
  s !! k = Some c /\ forall j, (k < j)%nat -> s !! j ≠ Some c.
Proof.
  revert k. induction s as [|b s IH]; intros k Hr; [done|].
  cbn [Py.rfind_index] in Hr.
  destruct (Py.rfind_index [c] s) as [i|] eqn:E.
  - injection Hr as <-. destruct (IH i eq_refl) as [Hi Hlast].
    split; [exact Hi|]. intros [|j] Hj; [lia|]. simpl. apply Hlast. lia.
  - destruct (Py.startswith (b :: s) [c]) eqn:Es; [|done].
    injection Hr as <-. apply startswith_single in Es.
    split; [exact Es|]. intros [|j] Hj; [lia|]. simpl.
    by apply rfind_index_single_None.
Qed.

(** [find] of a one-character string: the first position that holds it. *)
Lemma find_index_single_None c s :
  Py.find_index [c] s = None -> forall j, s !! j ≠ Some c.
Proof.
  induction s as [|b s IH]; intros Hr j; [by destruct j|].
  cbn [Py.find_index] in Hr.
  destruct (Py.startswith (b :: s) [c]) eqn:Es; [done|].
  apply startswith_single_false in Es.
  destruct (Py.find_index [c] s) eqn:E; [done|].
  destruct j as [|j]; simpl; [exact Es | by apply IH].
Qed.

Lemma find_index_single_Some c s k :
  Py.find_index [c] s = Some k ->
  s !! k = Some c /\ forall j, (j < k)%nat -> s !! j ≠ Some c.
Proof.
  revert k. induction s as [|b s IH]; intros k Hr.
  - simpl in Hr. done.
  - cbn [Py.find_index] in Hr.
    destruct (Py.startswith (b :: s) [c]) eqn:Es.
    + injection Hr as <-. apply startswith_single in Es.
      split; [exact Es|]. intros j Hj. lia.
    + apply startswith_single_false in Es.
      destruct (Py.find_index [c] s) as [i|] eqn:E; [|done].
      injection Hr as <-. destruct (IH i eq_refl) as [Hi Hfirst].
      split; [exact Hi|]. intros [|j] Hj; simpl; [exact Es|].
      apply Hfirst. lia.
Qed.

(** Replacing a one-character string rewrites the characters one by one. *)
Lemma replace_single c new s :
  Py.replace s [c] new = s ≫= (fun x => if bool_decide (x = c) then new else [x]).
Proof.
  unfold Py.replace. induction s as [|b s IH]; [done|].
  cbn [Py.replace_go mbind list_bind length Nat.sub].
  destruct (Py.startswith (b :: s) [c]) eqn:Es.
  - apply startswith_single in Es. simpl in Es. injection Es as ->.
    rewrite bool_decide_true by done. by rewrite IH.
  - apply startswith_single_false in Es. simpl in Es.
    rewrite bool_decide_false by congruence. simpl. by rewrite IH.
Qed.

(** Splitting on a one-character separator gives one piece more than there
    are separators in the string. *)
Lemma split_go_single_length c cur s :
  length (Py.split_go [c] 0 cur s) = S (length (filter (fun x => x = c) s)).
Proof.
  revert cur. induction s as [|b s IH]; intros cur; [done|].
  cbn [Py.split_go length Nat.sub].
  destruct (Py.startswith (b :: s) [c]) eqn:Es.
  - apply startswith_single in Es. simpl in Es. injection Es as ->.
    rewrite filter_cons_True by done. simpl. by rewrite IH.
  - apply startswith_single_false in Es. simpl in Es.
    rewrite filter_cons_False by congruence. by rewrite IH.
Qed.

Lemma range_length a b : length (Py.range a b) = Z.to_nat (b - a).
Proof. unfold Py.range. by rewrite length_fmap, length_seq. Qed.

Lemma range_down_length a b : length (Py.range_down a b) = Z.to_nat (a - b).
Proof. unfold Py.range_down. by rewrite length_fmap, length_seq. Qed.

(** [range(1, n + 1)] counts from 1 to [n]. *)
Lemma range_from_1 (n : nat) :
  Py.range 1 (Z.of_nat n + 1) = Z.of_nat <$> seq 1 n.
Proof.
  unfold Py.range. replace (Z.to_nat (Z.of_nat n + 1 - 1)) with n by lia.
  rewrite <- (fmap_S_seq 0 n), <- list_fmap_compose.
  apply list_fmap_ext. intros i x _. simpl. lia.
Qed.

(** A loop whose body ignores the loop variable runs the body once per
    element. *)
Lemma foldl_ignore {A B} (f : A -> A) (l : list B) (a : A) :
  foldl (fun x _ => f x) a l = Nat.iter (length l) f a.
Proof.
  revert a. induction l as [|b l IH]; intros a; [done|].
  simpl. rewrite IH. clear IH.
  induction (length l) as [|n IHn]; [done|]. simpl. by rewrite IHn.
Qed.

(** ** Facts about the methods *)

Section Properties.
Context `{Py.UnicodeCase}.

(** [_update_controls] only writes the widgets. *)
Lemma update_controls_text self : text (_update_controls self) = text self.
Proof. unfold _update_controls. by repeat case_match. Qed.

Lemma update_controls_type_point self :
  type_point (_update_controls self) = type_point self.
Proof. unfold _update_controls. by repeat case_match. Qed.

Lemma set_type_point_ok self to : cursor_ok (set_type_point self to).
Proof.
  unfold cursor_ok, set_type_point. simpl.
  pose proof (len_nonneg (text self)). lia.
Qed.

Lemma remove_letter_ok self : cursor_ok (remove_letter self).
Proof.
  unfold remove_letter, cursor_ok. simpl.
  rewrite update_controls_text, update_controls_type_point.
  apply set_type_point_ok.
Qed.

Lemma insert_letter_ok self letter :
  cursor_ok self -> cursor_ok (insert_letter self letter).
Proof.
  intros Hok. unfold insert_letter. repeat case_match; try done.
  unfold cursor_ok. simpl.
  rewrite update_controls_text, update_controls_type_point.
  apply set_type_point_ok.
Qed.

Lemma insert_word_ok self word :
  cursor_ok self -> cursor_ok (insert_word self word).
Proof.
  unfold insert_word. revert self.
  induction (Py.letters word) as [|l ls IH]; intros self Hok; [done|].
  simpl. by apply IH, insert_letter_ok.
Qed.


(** *** Deleting *)

(** With the cursor at 0 the slice [text[:type_point - 1]] is [text[:-1]]:
    the buffer without its last character is put in front of the buffer. *)
Lemma remove_letter_at_start self :
  type_point self = 0 ->
  text (remove_letter self) = take (length (text self) - 1) (text self) ++ text self
  /\ type_point (remove_letter self) = 0.
Proof.
  intros H0. unfold remove_letter. simpl.
  rewrite update_controls_text, update_controls_type_point. simpl.
  rewrite H0. simpl. rewrite slice_to_minus1, slice_from_drop by lia.
  split; [done|]. pose proof (len_nonneg (take (length (text self) - 1) (text self) ++ drop (Z.to_nat 0) (text self))).
  lia.
Qed.

(** With a character before the cursor, that character goes and the cursor
    follows. *)
Lemma remove_letter_inside self :
  1 <= type_point self <= len (text self) ->
  text (remove_letter self)
  = take (Z.to_nat (type_point self - 1)) (text self)
    ++ drop (Z.to_nat (type_point self)) (text self)
  /\ type_point (remove_letter self) = type_point self - 1.
Proof.
  intros Hp. unfold remove_letter. simpl.
  rewrite update_controls_text, update_controls_type_point. simpl.
  rewrite slice_to_take, slice_from_drop by lia.
  split; [done|].
  rewrite len_app. unfold len in *.
  rewrite length_take, length_drop. lia.
Qed.

Lemma remove_letter_iter (n : nat) self :
  Z.of_nat n <= type_point self <= len (text self) ->
  text (Nat.iter n remove_letter self)
  = take (Z.to_nat (type_point self) - n) (text self)
    ++ drop (Z.to_nat (type_point self)) (text self)
  /\ type_point (Nat.iter n remove_letter self) = type_point self - Z.of_nat n.
Proof.
  induction n as [|n IH]; intros Hp.
  - simpl. rewrite Nat.sub_0_r, take_drop. split; [done|lia].
  - destruct IH as [IHt IHp]; [lia|].
    rewrite Nat.iter_succ.
    destruct (remove_letter_inside (Nat.iter n remove_letter self)) as [Ht Hq].
    { rewrite IHp, IHt, len_app. unfold len in *.
      rewrite length_take, length_drop. lia. }
    rewrite Ht, Hq, IHp, IHt. split; [|lia].
    unfold len in *.
    rewrite take_app_le by (rewrite length_take; lia).
    rewrite take_take.
    rewrite drop_app_ge by (rewrite length_take; lia).
    rewrite length_take.
    replace (Z.to_nat (type_point self - Z.of_nat n - 1)
             `min` (Z.to_nat (type_point self) - n))%nat
      with (Z.to_nat (type_point self) - S n)%nat by lia.
    replace (Z.to_nat (type_point self - Z.of_nat n)
             - (Z.to_nat (type_point self) - n) `min` length (text self))%nat
      with 0%nat by lia.
    done.
Qed.

(** The value of [rfind] on the text before the cursor, in the words of
    [last_before] and [none_before]. *)
Lemma rfind_before_found c s (p k : nat) :
  (p <= length s)%nat -> last_before c s p k ->
  Py.rfind (take p s) [c] = Z.of_nat k.
Proof.
  intros Hp (Hk & Hat & Hlast). unfold Py.rfind.
  destruct (Py.rfind_index [c] (take p s)) as [i|] eqn:E.
  - apply rfind_index_single_Some in E as [Hi Hafter]. simpl. f_equal.
    assert (i < p)%nat as Hip.
    { apply lookup_lt_Some in Hi. rewrite length_take in Hi. lia. }
    rewrite lookup_take_lt in Hi by done.
    destruct (Nat.lt_trichotomy i k) as [Hlt|[->|Hgt]]; [|done|].
    + exfalso. apply (Hafter k Hlt). by rewrite lookup_take_lt.
    + exfalso. by apply (Hlast i).
  - exfalso. eapply rfind_index_single_None; [exact E|].
    rewrite lookup_take_lt; [exact Hat | done].
Qed.

Lemma rfind_before_none c s (p : nat) :
  none_before c s p -> Py.rfind (take p s) [c] = -1.
Proof.
  intros Hnone. unfold Py.rfind.
  destruct (Py.rfind_index [c] (take p s)) as [i|] eqn:E; [|done].
  apply rfind_index_single_Some in E as [Hi _]. exfalso.
  assert (i < p)%nat as Hip.
  { apply lookup_lt_Some in Hi. rewrite length_take in Hi. lia. }
  rewrite lookup_take_lt in Hi by done. by apply (Hnone i).
Qed.

(** One of the two always holds. *)
Lemma last_before_or_none c s (p : nat) :
  none_before c s p \/ exists k, last_before c s p k.
Proof.
  destruct (Py.rfind_index [c] (take p s)) as [i|] eqn:E.
  - right. exists i. apply rfind_index_single_Some in E as [Hi Hafter].
    assert (i < p)%nat as Hip.
    { apply lookup_lt_Some in Hi. rewrite length_take in Hi. lia. }
    rewrite lookup_take_lt in Hi by done.
    repeat split; [done..|]. intros j Hj Hc.
    apply (Hafter j); [lia|]. by rewrite lookup_take_lt by lia.
  - left. intros j Hj Hc. eapply rfind_index_single_None; [exact E|].
    by rewrite lookup_take_lt.
Qed.

(** *** The dispatcher *)

Lemma text_up_to_point self :
  cursor_ok self ->
  get_text_up_to_point self = take (Z.to_nat (type_point self)) (text self).
Proof. intros [Hlo _]. unfold get_text_up_to_point. by apply slice_to_take. Qed.

Lemma text_after_point self :
  cursor_ok self ->
  get_text_after_point self = drop (Z.to_nat (type_point self)) (text self).
Proof. intros [Hlo _]. unfold get_text_after_point. by apply slice_from_drop. Qed.

(** C1 (the code departs from the specification). Backspace with the
    cursor at offset 0 of the buffer "abc" is not a no-op: [remove_letter]
    leaves the buffer "ababc", with the cursor still at 0, and so does the
    plain Backspace event that is routed to it. *)
Theorem backspace_at_start_duplicates_text :
  text (remove_letter (editing (pystr "abc") 0)) = pystr "ababc"
  /\ type_point (remove_letter (editing (pystr "abc") 0)) = 0
  /\ text (on_keyboard_input [] (editing (pystr "abc") 0)
             (key_event "Backspace" false false)) = pystr "ababc"
  /\ type_point (on_keyboard_input [] (editing (pystr "abc") 0)
                   (key_event "Backspace" false false)) = 0.
Proof. vm_compute. repeat split. Qed.

(** C2 (amended). On a focused control with a valid cursor, Backspace with
    ctrl deletes the characters from the cursor back to and including the
    previous space: the text becomes the text before that space followed by
    the text after the cursor, and the cursor ends at the index the space
    had. If there is no space before the cursor, everything before the
    cursor is deleted and the cursor ends at 0. *)
Theorem word_delete_through_space (clipboard : str) (self : CodeField)
    (event : KeyboardEvent) :
  focused self = true ->
  key event = pystr "Backspace" ->
  ctrl event = true ->
  cursor_ok self ->
  let p := Z.to_nat (type_point self) in
  let r := on_keyboard_input clipboard self event in
  (forall k, last_before 32 (text self) p k ->
     text r = take k (text self) ++ drop p (text self)
     /\ type_point r = Z.of_nat k)
  /\ (none_before 32 (text self) p ->
      text r = drop p (text self) /\ type_point r = 0).
Proof.
  intros Hf Hkey Hctrl Hok p r. subst r.
  unfold on_keyboard_input. rewrite Hf, Hkey, Hctrl. simpl negb. cbv iota.
  decide_key. rewrite foldl_ignore, range_down_length, (text_up_to_point _ Hok).
  fold p. destruct Hok as [Hlo Hhi]. unfold len in Hhi.
  assert (p <= length (text self))%nat as Hpl by (subst p; lia).
  split.
  - intros k Hk. unfold SPACE.
    rewrite (rfind_before_found _ _ _ _ Hpl Hk).
    rewrite bool_decide_true by lia.
    destruct Hk as (Hkp & _).
    destruct (remove_letter_iter (Z.to_nat (type_point self - Z.of_nat k)) self)
      as [Ht Hp]; [unfold len; lia|].
    rewrite Ht, Hp. fold p. split; [|lia].
    do 2 f_equal. lia.
  - intros Hnone. unfold SPACE.
    rewrite (rfind_before_none _ _ _ Hnone).
    rewrite bool_decide_false by lia.
    destruct (remove_letter_iter (Z.to_nat (type_point self - 0)) self)
      as [Ht Hp]; [unfold len; lia|].
    rewrite Ht, Hp. fold p. split; [|lia].
    replace (p - Z.to_nat (type_point self - 0))%nat with 0%nat by lia.
    done.
Qed.

(** C3 (amended). On a focused control with a valid cursor, Left with ctrl
    moves the cursor onto the last space before it, that is to the index of
    that space and not past it, or to 0 if there is no space before the
    cursor; nothing else changes. *)
Theorem word_left_to_space (clipboard : str) (self : CodeField)
    (event : KeyboardEvent) :
  focused self = true ->
  key event = pystr "Arrow Left" ->
  ctrl event = true ->
  cursor_ok self ->
  let p := Z.to_nat (type_point self) in
  let r := on_keyboard_input clipboard self event in
  (forall k, last_before 32 (text self) p k ->
     r = assign_type_point (Z.of_nat k) self)
  /\ (none_before 32 (text self) p -> r = assign_type_point 0 self).
Proof.
  intros Hf Hkey Hctrl Hok p r. subst r.
  unfold on_keyboard_input. rewrite Hf, Hkey, Hctrl. simpl negb. cbv iota.
  decide_key. rewrite (text_up_to_point _ Hok). fold p.
  destruct Hok as [Hlo Hhi]. unfold len in Hhi. unfold set_type_point, SPACE.
  assert (p <= length (text self))%nat as Hpl by (subst p; lia).
  split.
  - intros k Hk. rewrite (rfind_before_found _ _ _ _ Hpl Hk).
    rewrite bool_decide_true by lia. destruct Hk as (Hkp & _).
    f_equal. unfold len. lia.
  - intros Hnone. rewrite (rfind_before_none _ _ _ Hnone).
    rewrite bool_decide_false by lia. f_equal. unfold len. lia.
Qed.

(** Where Right with ctrl puts the cursor: the offset of the space found in
    the text after the cursor is added to the cursor twice, once as
    [charactersBeforePoint] and once as [type_point]. *)
Lemma word_right_cursor (clipboard : str) (self : CodeField)
    (event : KeyboardEvent) :
  focused self = true ->
  key event = pystr "Arrow Right" ->
  ctrl event = true ->
  cursor_ok self ->
  let after := drop (Z.to_nat (type_point self)) (text self) in
  type_point (on_keyboard_input clipboard self event)
  = if bool_decide (Py.find after SPACE ≠ -1)
    then Z.min (len (text self)) (2 * type_point self + Py.find after SPACE)
    else len (text self).
Proof.
  intros Hf Hkey Hctrl Hok after.
  unfold on_keyboard_input. rewrite Hf, Hkey, Hctrl. simpl negb. cbv iota.
  decide_key. cbv iota.
  rewrite (text_up_to_point _ Hok), (text_after_point _ Hok). fold after.
  destruct Hok as [Hlo Hhi]. unfold set_type_point. simpl.
  assert (len (take (Z.to_nat (type_point self)) (text self)) = type_point self) as ->.
  { unfold len in *. rewrite length_take. lia. }
  assert (len after = len (text self) - type_point self) as Hafter.
  { unfold after, len in *. rewrite length_drop. lia. }
  case_bool_decide as Hfound.
  - assert (0 <= Py.find after SPACE).
    { unfold Py.find, Py.index_or_minus1 in *. case_match; lia. }
    lia.
  - lia.
Qed.

(** C4 (the code departs from the specification). On the text
    "a b c d e f" with the cursor at 2, the first space after the cursor is
    at offset 1 of the text after the cursor, so that the specification puts
    the cursor at 3; Right with ctrl puts it at 5. *)
Theorem word_right_counts_cursor_twice :
  Py.find (get_text_after_point (editing (pystr "a b c d e f") 2)) SPACE = 1
  /\ type_point (on_keyboard_input [] (editing (pystr "a b c d e f") 2)
                   (key_event "Arrow Right" true false)) = 5.
Proof. vm_compute. split; reflexivity. Qed.

(** *** The render step *)

Lemma code_escapes_backticks self (t : str) :
  _code self t
  = pystr "```" ++ language self ++ NEWLINE ++ escape_backticks t
    ++ NEWLINE ++ pystr "```".
Proof.
  unfold _code, escape_backticks, BACKTICK, BACKSLASH.
  by rewrite replace_single.
Qed.

Lemma update_controls_line_numbers self :
  line_numbers_controls (_update_controls self)
  = if show_line_numbers self
    then Py.range 1 (len (Py.split (text self) NEWLINE) + 1)
    else line_numbers_controls self.
Proof.
  unfold _update_controls. cbv zeta.
  cbn [show_language_text emit set_code_markdown_value].
  destruct (show_language_text self);
    cbn [show_line_numbers emit set_code_markdown_value set_language_text_value];
    destruct (show_line_numbers self); reflexivity.
Qed.

(** C5 (amended). The line-number labels that [_update_controls] produces
    are 1 .. n for a text of n newline-separated lines (one label per line
    and none beyond the last line); with the line numbers switched off the
    labels are left as they are. For the text "a\nb\nc" the labels are
    1, 2, 3. *)
Theorem line_numbers_one_per_line (self : CodeField) :
  line_numbers_controls (_update_controls self)
  = (if show_line_numbers self
     then Z.of_nat <$> seq 1 (line_count (text self))
     else line_numbers_controls self)
  /\ line_numbers_controls
       (_update_controls
          (editing (pystr "a" ++ NEWLINE ++ pystr "b" ++ NEWLINE ++ pystr "c") 5))
     = [1; 2; 3].
Proof.
  split; [|by vm_compute].
  rewrite update_controls_line_numbers.
  destruct (show_line_numbers self); [|done].
  unfold Py.split, NEWLINE, len. rewrite split_go_single_length.
  fold (line_count (text self)). apply range_from_1.
Qed.

(** C7. The markdown value that [_update_controls] produces is the fence
    with the language tag, the text with each backtick replaced by
    backslash-backtick, and the closing fence; an empty text is replaced by
    a single space. For the text "`x`" and the language "python" it is
    "```python\n\`x\`\n```". *)
Theorem fenced_code_string (self : CodeField) :
  code_markdown_value (_update_controls self)
  = pystr "```" ++ language self ++ NEWLINE
    ++ escape_backticks (match text self with [] => SPACE | _ => text self end)
    ++ NEWLINE ++ pystr "```"
  /\ code_markdown_value (_update_controls (editing [96; 120; 96]%N 3))
     = pystr "```python" ++ NEWLINE ++ [92; 96; 120; 92; 96]%N ++ NEWLINE
       ++ pystr "```"
  /\ code_markdown_value (_update_controls (editing [] 0))
     = pystr "```python" ++ NEWLINE ++ SPACE ++ NEWLINE ++ pystr "```".
Proof.
  split; [|by vm_compute].
  assert (code_markdown_value (_update_controls self)
          = _code self (if bool_decide (text self ≠ []) then text self else SPACE))
    as ->.
  { unfold _update_controls. by repeat case_match. }
  rewrite code_escapes_backticks.
  by destruct (text self).
Qed.

(** *** The key translator *)

Lemma keypad_symbol_cases (label : str) :
  keypad_symbol label
  = if bool_decide (label = pystr "Decimal") then Some (pystr ".")
    else if bool_decide (label = pystr "Add") then Some (pystr "+")
    else if bool_decide (label = pystr "Subtract") then Some (pystr "-")
    else if bool_decide (label = pystr "Divide") then Some (pystr "/")
    else if bool_decide (label = pystr "Multiply") then Some (pystr "*")
    else if bool_decide (label = pystr "Num Lock") then Some []
    else None.
Proof.
  unfold keypad_symbol, keypad_symbols. cbn [List.find fst].
  repeat (case_bool_decide; [subst label; try done; by vm_compute in *|]).
  repeat (rewrite bool_decide_false by congruence).
  done.
Qed.

Lemma startswith_take s p :
  Py.startswith s p = bool_decide (take (length p) s = p).
Proof.
  revert s. induction p as [|a p IH]; intros s.
  - symmetry. by apply bool_decide_eq_true.
  - destruct s as [|b s].
    + symmetry. by apply bool_decide_eq_false.
    + cbn [Py.startswith length take]. rewrite IH.
      repeat case_bool_decide; simpl; congruence.
Qed.

Lemma replace_go_skip p new (a rest : str) :
  Py.replace_go p new (length a) (a ++ rest) = Py.replace_go p new 0 rest.
Proof. induction a as [|c a IH]; [done|]. simpl. exact IH. Qed.

(** A string in which [p] does not occur is left as it is. *)
Lemma replace_go_absent p new s :
  ~ occurs p s -> Py.replace_go p new 0 s = s.
Proof.
  induction s as [|c s IH]; intros Hno; [done|].
  cbn [Py.replace_go].
  destruct (Py.startswith (c :: s) p) eqn:E.
  - exfalso. rewrite startswith_take in E. apply bool_decide_eq_true in E.
    apply Hno. exists [], (drop (length p) (c :: s)).
    rewrite <- E at 1. simpl. by rewrite take_drop.
  - f_equal. apply IH. intros (a & b & ->). apply Hno. by exists (c :: a), b.
Qed.

(** A string that starts with [p] loses it and is searched further. *)
Lemma replace_leading (c : N) (p new rest : str) :
  Py.replace ((c :: p) ++ rest) (c :: p) new
  = new ++ Py.replace_go (c :: p) new 0 rest.
Proof.
  unfold Py.replace. cbn [app Py.replace_go].
  assert (Py.startswith (c :: p ++ rest) (c :: p) = true) as ->.
  { rewrite startswith_take. apply bool_decide_eq_true.
    change (c :: p ++ rest) with ((c :: p) ++ rest).
    by rewrite take_app_length. }
  f_equal.
  replace (length (c :: p) - 1)%nat with (length p) by (simpl; lia).
  apply replace_go_skip.
Qed.

(** A label that starts with "Numpad" without the space of the prefix keeps
    its first six characters. *)
Lemma replace_keeps_numpad (tail : str) :
  take 7 (pystr "Numpad" ++ tail) ≠ keypad_prefix ->
  exists x, Py.replace (pystr "Numpad" ++ tail) (pystr "Numpad ") []
            = pystr "Numpad" ++ x.
Proof.
  intros Hp. exists (Py.replace_go (pystr "Numpad ") [] 0 tail).
  unfold Py.replace.
  change (pystr "Numpad" ++ tail)
    with (78 :: 117 :: 109 :: 112 :: 97 :: 100 :: tail)%N in *.
  cbn [Py.replace_go].
  assert (Py.startswith (78 :: 117 :: 109 :: 112 :: 97 :: 100 :: tail)%N
            (pystr "Numpad ") = false) as ->.
  { rewrite startswith_take. by apply bool_decide_eq_false. }
  reflexivity.
Qed.

Lemma upper_single (c : N) : Py.upper [c] = upper_cased c.
Proof.
  unfold Py.upper, Py.upper_char, upper_cased, ascii_upper. simpl.
  rewrite app_nil_r.
  destruct (N.leb_spec 97 c), (N.leb_spec c 122), (N.ltb_spec c 128);
    simpl; try done; lia.
Qed.

Lemma lower_single (c : N) : Py.lower [c] = lower_cased c.
Proof.
  unfold Py.lower, Py.lower_char, lower_cased, ascii_lower. simpl.
  rewrite app_nil_r.
  destruct (N.leb_spec 65 c), (N.leb_spec c 90), (N.ltb_spec c 128);
    simpl; try done; lia.
Qed.

(** Rules 4 to 6 on the label that rule 3 leaves. *)
Lemma keypad_and_case_rules (capsActive shiftHeld : bool) (l : str) :
  (if bool_decide (l = pystr "Decimal") then pystr "."
   else if bool_decide (l = pystr "Add") then pystr "+"
   else if bool_decide (l = pystr "Subtract") then pystr "-"
   else if bool_decide (l = pystr "Divide") then pystr "/"
   else if bool_decide (l = pystr "Multiply") then pystr "*"
   else if bool_decide (l = pystr "Num Lock") then []
   else if 1 <? len l then []
   else if capsActive || shiftHeld then Py.upper l else Py.lower l)
  = match keypad_symbol l with
    | Some symbol => symbol
    | None => rule_case shiftHeld capsActive l
    end.
Proof.
  rewrite keypad_symbol_cases.
  repeat (case_bool_decide; [done|]).
  destruct l as [|a [|b l]].
  - by destruct (capsActive || shiftHeld).
  - change (1 <? len [a]) with false. cbv iota.
    by rewrite upper_single, lower_single.
  - assert ((1 <? len (a :: b :: l)) = true) as ->; [|done].
    apply Z.ltb_lt. unfold len. simpl. lia.
Qed.

Lemma numpad_headed_gives_nothing (capsActive shiftHeld : bool) (x : str) :
  match keypad_symbol (pystr "Numpad" ++ x) with
  | Some symbol => symbol
  | None => rule_case shiftHeld capsActive (pystr "Numpad" ++ x)
  end = [].
Proof.
  rewrite keypad_symbol_cases.
  repeat (case_bool_decide as Hc; [by (cbn in Hc; congruence)|]).
  reflexivity.
Qed.

(** C6 (amended). For every key label, shift flag, caps state and shift
    map such that the label, after the substitutions of Enter and of the
    shift map, does not carry the keypad prefix "Numpad " a second time
    behind a leading one, [_parse_letter] is the key translator of section
    4.1, rule after rule: Enter is the newline; under shift a label of the
    shift map is replaced by its mapped character; the keypad prefix is
    stripped and the special keypad labels give their symbols; what is left
    gives nothing if it is longer than one character, and a single
    character comes back upper-cased if caps is active or shift is held and
    lower-cased otherwise. So Enter gives the newline, "1" under shift and
    the default map gives "!", "F5" gives nothing, "a" under caps gives "A"
    and "A" without caps and shift gives "a". *)
Theorem parse_letter_follows_rules (self : CodeField) (letter : str)
    (isShift : bool) :
  keypad_prefix_once
    (rule_shift isShift (custom_shift_mapping self) (rule_enter letter)) ->
  _parse_letter self letter isShift
  = translate letter isShift (is_caps self) (custom_shift_mapping self)
  /\ translate (pystr "Enter") false false uk_shift_mapping = NEWLINE
  /\ translate (pystr "1") true false uk_shift_mapping = pystr "!"
  /\ translate (pystr "F5") false false uk_shift_mapping = []
  /\ translate (pystr "a") false true uk_shift_mapping = pystr "A"
  /\ translate (pystr "A") false false uk_shift_mapping = pystr "a"
  /\ _parse_letter default_CodeField (pystr "Enter") false = NEWLINE
  /\ _parse_letter default_CodeField (pystr "1") true = pystr "!"
  /\ _parse_letter default_CodeField (pystr "F5") false = []
  /\ _parse_letter (set_is_caps true default_CodeField) (pystr "a") false
     = pystr "A"
  /\ _parse_letter default_CodeField (pystr "A") false = pystr "a".
Proof.
  intros Honce. split; [|repeat split; by vm_compute].
  unfold _parse_letter, translate. cbv zeta.
  change (if bool_decide (letter = pystr "Enter") then NEWLINE else letter)
    with (rule_enter letter).
  set (l1 := rule_enter letter) in *.
  assert ((if isShift
           then match custom_shift_mapping self !! l1 with
                | Some mapped => mapped
                | None => l1
                end
           else l1)
          = rule_shift isShift (custom_shift_mapping self) l1) as ->.
  { unfold rule_shift. destruct isShift; [|done].
    by destruct (custom_shift_mapping self !! l1). }
  set (l2 := rule_shift isShift (custom_shift_mapping self) l1) in *.
  clearbody l2. clear l1.
  rewrite keypad_and_case_rules.
  unfold strip_keypad_prefix. case_bool_decide as Hp.
  - (* the label starts with the prefix *)
    assert (l2 = keypad_prefix ++ drop 7 l2) as Hl2.
    { rewrite <- Hp. by rewrite take_drop. }
    assert (Py.startswith l2 (pystr "Numpad") = true) as ->.
    { rewrite Hl2. reflexivity. }
    assert (Py.replace l2 (pystr "Numpad ") [] = drop 7 l2) as ->; [|done].
    rewrite Hl2 at 1.
    change (Py.replace (keypad_prefix ++ drop 7 l2) (pystr "Numpad ") [])
      with (Py.replace ((78%N :: pystr "umpad ") ++ drop 7 l2)
              (78%N :: pystr "umpad ") []).
    rewrite replace_leading.
    change (78%N :: pystr "umpad ") with keypad_prefix.
    by rewrite replace_go_absent by (by apply Honce).
  - (* the label does not start with the prefix *)
    destruct (Py.startswith l2 (pystr "Numpad")) eqn:Es; [|done].
    rewrite startswith_take in Es. apply bool_decide_eq_true in Es.
    assert (l2 = pystr "Numpad" ++ drop 6 l2) as Hl2.
    { rewrite <- Es. by rewrite take_drop. }
    rewrite Hl2 in Hp |- *.
    destruct (replace_keeps_numpad (drop 6 l2) Hp) as [x ->].
    by rewrite !numpad_headed_gives_nothing.
Qed.

(** *** The cursor invariant *)

Lemma remove_letter_iter_ok (n : nat) self :
  cursor_ok self -> cursor_ok (Nat.iter n remove_letter self).
Proof.
  intros Hok. destruct n as [|n]; [done|].
  rewrite Nat.iter_succ. apply remove_letter_ok.
Qed.

Lemma set_focus_ok self focus : cursor_ok self -> cursor_ok (set_focus self focus).
Proof. done. Qed.

Lemma on_keyboard_input_ok clipboard self event :
  cursor_ok self -> cursor_ok (on_keyboard_input clipboard self event).
Proof.
  intros Hok. unfold on_keyboard_input.
  destruct (focused self); simpl negb; cbv iota; [|done].
  case_bool_decide.
  { destruct (ctrl event); simpl negb; cbv iota.
    - rewrite foldl_ignore. by apply remove_letter_iter_ok.
    - apply remove_letter_ok. }
  case_bool_decide; [by apply set_focus_ok|].
  case_bool_decide; [done|].
  case_bool_decide; [destruct (ctrl event); apply set_type_point_ok|].
  cbv zeta.
  set (self' := if bool_decide (key event = pystr "Tab")
                then insert_word self (Py.repeat SPACE (tab_spacing self))
                else self).
  assert (cursor_ok self') as Hok'.
  { subst self'. case_bool_decide; [by apply insert_word_ok|done]. }
  clearbody self'.
  case_bool_decide; [destruct (ctrl event); apply set_type_point_ok|].
  case_bool_decide; [apply set_type_point_ok|].
  case_bool_decide; [apply set_type_point_ok|].
  destruct (ctrl event && bool_decide (key event = pystr "V"));
    [by apply insert_word_ok|].
  case_bool_decide; [done|]. by apply insert_letter_ok.
Qed.

Lemma perform_ok self op : cursor_ok self -> cursor_ok (perform self op).
Proof.
  intros Hok. destruct op; simpl.
  - by apply insert_letter_ok.
  - by apply insert_word_ok.
  - apply remove_letter_ok.
  - apply set_type_point_ok.
  - by apply set_focus_ok.
  - by apply on_keyboard_input_ok.
Qed.

(** C8. From a state whose cursor is in range, every state that a sequence
    of operations (insertions, deletions, cursor settings, clicks and
    keyboard events) goes through has [0 <= cursor <= length(content)]. *)
Theorem cursor_always_in_range (self : CodeField) (ops : list Operation) :
  cursor_ok self -> Forall cursor_ok (run self ops).
Proof.
  revert self. induction ops as [|op ops IH]; intros self Hok; simpl.
  - constructor.
  - constructor; [by apply perform_ok|]. by apply IH, perform_ok.
Qed.

(** C9. A keyboard event that arrives while the control is not focused
    leaves the whole state as it is: the text, the cursor, the caps state
    and the focus are unchanged, and no callback or repaint is added to the
    effects. *)
Theorem unfocused_ignores_keyboard (clipboard : str) (self : CodeField)
    (event : KeyboardEvent) :
  focused self = false -> on_keyboard_input clipboard self event = self.
Proof. intros Hf. unfold on_keyboard_input. by rewrite Hf. Qed.

(** *** Pasting *)

Lemma insert_letter_single self (c : N) :
  cursor_ok self ->
  text (insert_letter self [c])
  = take (Z.to_nat (type_point self)) (text self) ++ [c]
    ++ drop (Z.to_nat (type_point self)) (text self)
  /\ type_point (insert_letter self [c]) = type_point self + 1.
Proof.
  intros [Hlo Hhi]. unfold insert_letter.
  rewrite bool_decide_false by done.
  change (1 <? len [c]) with false. cbv iota zeta.
  cbn [text type_point emit].
  rewrite update_controls_text, update_controls_type_point.
  cbn [text type_point set_type_point assign_type_point set_text].
  rewrite slice_to_take, slice_from_drop by lia.
  split; [done|].
  rewrite !len_app. unfold len in *.
  rewrite length_take, length_drop. simpl. lia.
Qed.

Lemma insert_word_text self (word : str) :
  cursor_ok self ->
  text (insert_word self word)
  = take (Z.to_nat (type_point self)) (text self) ++ word
    ++ drop (Z.to_nat (type_point self)) (text self)
  /\ type_point (insert_word self word) = type_point self + len word.
Proof.
  unfold insert_word. revert self.
  induction word as [|c word IH]; intros self Hok.
  - simpl. rewrite take_drop. unfold len. simpl. split; [done|lia].
  - cbn [Py.letters fmap list_fmap foldl].
    destruct (insert_letter_single self c Hok) as [Ht Hp].
    destruct (IH (insert_letter self [c])) as [IHt IHp];
      [by apply insert_letter_ok|].
    unfold Py.letters in *. rewrite IHt, IHp, Ht, Hp.
    destruct Hok as [Hlo Hhi]. unfold len in *.
    split; [|simpl; lia].
    set (p := Z.to_nat (type_point self)).
    replace (Z.to_nat (type_point self + 1)) with (S p) by lia.
    assert (length (take p (text self)) = p) as Hlen
      by (rewrite length_take; lia).
    rewrite (app_assoc (take p (text self)) [c]).
    rewrite take_app_length', drop_app_length'
      by (rewrite length_app, Hlen; simpl; lia).
    by rewrite <- !app_assoc.
Qed.

(** The flag [allow_pasting] is carried along and never read. *)
Lemma update_controls_allow_pasting flag self :
  _update_controls (set_allow_pasting flag self)
  = set_allow_pasting flag (_update_controls self).
Proof.
  destruct self as [t sl sn ap sf ts lg m caps foc tp mv lv ln cb eff].
  unfold _update_controls, set_allow_pasting. cbv zeta.
  cbn [show_language_text show_line_numbers emit set_code_markdown_value
       set_language_text_value].
  by destruct sl, sn.
Qed.

Lemma set_text_allow_pasting flag self v :
  set_text v (set_allow_pasting flag self)
  = set_allow_pasting flag (set_text v self).
Proof. reflexivity. Qed.

Lemma set_type_point_allow_pasting flag self to :
  set_type_point (set_allow_pasting flag self) to
  = set_allow_pasting flag (set_type_point self to).
Proof. reflexivity. Qed.

Lemma insert_letter_allow_pasting flag self letter :
  insert_letter (set_allow_pasting flag self) letter
  = set_allow_pasting flag (insert_letter self letter).
Proof.
  unfold insert_letter. do 2 (case_match; [done|]). cbv zeta.
  rewrite set_text_allow_pasting, set_type_point_allow_pasting,
    update_controls_allow_pasting.
  reflexivity.
Qed.

Lemma remove_letter_allow_pasting flag self :
  remove_letter (set_allow_pasting flag self)
  = set_allow_pasting flag (remove_letter self).
Proof.
  unfold remove_letter. cbv zeta.
  rewrite set_text_allow_pasting, set_type_point_allow_pasting,
    update_controls_allow_pasting.
  reflexivity.
Qed.

Lemma insert_word_allow_pasting flag self word :
  insert_word (set_allow_pasting flag self) word
  = set_allow_pasting flag (insert_word self word).
Proof.
  unfold insert_word. revert self.
  induction (Py.letters word) as [|l ls IH]; intros self; [done|].
  simpl. by rewrite insert_letter_allow_pasting, IH.
Qed.

Lemma remove_letter_iter_allow_pasting flag (n : nat) self :
  Nat.iter n remove_letter (set_allow_pasting flag self)
  = set_allow_pasting flag (Nat.iter n remove_letter self).
Proof.
  induction n as [|n IH]; [done|].
  by rewrite !Nat.iter_succ, IH, remove_letter_allow_pasting.
Qed.

(** The dispatcher does the same with either value of the flag. *)
Lemma on_keyboard_input_allow_pasting flag clipboard self event :
  on_keyboard_input clipboard (set_allow_pasting flag self) event
  = set_allow_pasting flag (on_keyboard_input clipboard self event).
Proof.
  unfold on_keyboard_input.
  change (focused (set_allow_pasting flag self)) with (focused self).
  destruct (focused self); simpl negb; cbv iota; [|done].
  case_bool_decide.
  { destruct (ctrl event); simpl negb; cbv iota.
    - rewrite !foldl_ignore. apply remove_letter_iter_allow_pasting.
    - apply remove_letter_allow_pasting. }
  case_bool_decide; [done|].
  case_bool_decide; [done|].
  case_bool_decide; [by destruct (ctrl event)|].
  cbv zeta.
  change (tab_spacing (set_allow_pasting flag self)) with (tab_spacing self).
  rewrite insert_word_allow_pasting.
  set (self' := if bool_decide (key event = pystr "Tab")
                then insert_word self (Py.repeat SPACE (tab_spacing self))
                else self).
  assert ((if bool_decide (key event = pystr "Tab")
           then set_allow_pasting flag
                  (insert_word self (Py.repeat SPACE (tab_spacing self)))
           else set_allow_pasting flag self)
          = set_allow_pasting flag self') as ->
    by (subst self'; by case_bool_decide).
  clearbody self'.
  case_bool_decide; [by destruct (ctrl event)|].
  case_bool_decide; [done|].
  case_bool_decide; [done|].
  destruct (ctrl event && bool_decide (key event = pystr "V"));
    [apply insert_word_allow_pasting|].
  change (_parse_letter (set_allow_pasting flag self') (key event) (shift event))
    with (_parse_letter self' (key event) (shift event)).
  case_bool_decide; [done|]. apply insert_letter_allow_pasting.
Qed.

(** C10. On a focused control a keyboard event with ctrl and the key label
    "V" inserts the clipboard text letter by letter at the cursor, whatever
    the value of [allow_pasting]: the text becomes the text before the
    cursor, the clipboard text and the text after the cursor, and the cursor
    moves behind the inserted text. For every keyboard event the dispatcher
    does with one value of the flag what it does with the other. *)
Theorem paste_ignores_allow_pasting (flag : bool) (clipboard : str)
    (self : CodeField) (event : KeyboardEvent) :
  focused self = true ->
  ctrl event = true ->
  key event = pystr "V" ->
  cursor_ok self ->
  let p := Z.to_nat (type_point self) in
  let r := on_keyboard_input clipboard (set_allow_pasting flag self) event in
  r = foldl insert_letter (set_allow_pasting flag self) (Py.letters clipboard)
  /\ text r = take p (text self) ++ clipboard ++ drop p (text self)
  /\ type_point r = type_point self + len clipboard
  /\ allow_pasting r = flag
  /\ (forall clipboard' event',
        on_keyboard_input clipboard' (set_allow_pasting flag self) event'
        = set_allow_pasting flag (on_keyboard_input clipboard' self event')).
Proof.
  intros Hf Hctrl Hkey Hok p r.
  assert (r = insert_word (set_allow_pasting flag self) clipboard) as Hr.
  { subst r. unfold on_keyboard_input.
    change (focused (set_allow_pasting flag self)) with (focused self).
    rewrite Hf, Hkey, Hctrl. simpl negb. cbv iota. decide_key. done. }
  split; [exact Hr|].
  rewrite Hr, insert_word_allow_pasting.
  destruct (insert_word_text self clipboard Hok) as [Ht Hp].
  repeat split; [exact Ht | exact Hp |].
  intros clipboard' event'. apply on_keyboard_input_allow_pasting.
Qed.

End Properties.

(** ** Concrete inputs *)

Lemma hello_world_last_space : last_before 32 hello_world 11 5.
Proof.
  repeat split; [lia|].
  intros j Hj.
  do 11 (destruct j as [|j]; [first [lia | by vm_compute]|]). lia.
Defined.

Lemma hello_no_space : none_before 32 hello_world 5.
Proof.
  intros j Hj.
  do 5 (destruct j as [|j]; [by vm_compute|]). lia.
Defined.

Lemma editing_cursor_ok (t : str) (p : nat) :
  (p <= length t)%nat -> cursor_ok (editing t (Z.of_nat p)).
Proof. intros Hp. unfold cursor_ok, len. simpl. lia. Defined.

(** C2 as the specification states it does not hold: Backspace with ctrl on
    "hello world" with the cursor at the end does not leave "hello " with
    its space. *)
Lemma word_delete_hello_world_not_trailing_space :
  text (on_keyboard_input (H:=ascii_case) [] (editing hello_world 11)
          (key_event "Backspace" true false))
  ≠ pystr "hello ".
Proof. by vm_compute. Qed.

(** C2, amended, on "hello world": the word and the space before it go,
    "hello" is left and the cursor is at 5. *)
Lemma word_delete_hello_world :
  text (on_keyboard_input (H:=ascii_case) [] (editing hello_world 11)
          (key_event "Backspace" true false)) = pystr "hello"
  /\ type_point (on_keyboard_input (H:=ascii_case) [] (editing hello_world 11)
                   (key_event "Backspace" true false)) = 5.
Proof.
  destruct (word_delete_through_space (H:=ascii_case) []
              (editing hello_world 11) (key_event "Backspace" true false)
              eq_refl eq_refl eq_refl (editing_cursor_ok hello_world 11 ltac:(simpl; lia)))
    as [Hfound _].
  exact (Hfound 5%nat hello_world_last_space).
Defined.

(** C3 as the specification states it does not hold: Left with ctrl on
    "hello world" from the end does not stop at 6, and from 6 it does not
    reach 0. *)
Lemma word_left_hello_world_not_after_space :
  type_point (on_keyboard_input (H:=ascii_case) [] (editing hello_world 11)
                (key_event "Arrow Left" true false)) ≠ 6
  /\ type_point (on_keyboard_input (H:=ascii_case) [] (editing hello_world 6)
                   (key_event "Arrow Left" true false)) ≠ 0.
Proof. split; by vm_compute. Qed.

(** C3, amended, on "hello world": from the end the cursor moves to 5, the
    index of the space, and from 5 it moves to 0. *)
Lemma word_left_hello_world :
  on_keyboard_input (H:=ascii_case) [] (editing hello_world 11)
    (key_event "Arrow Left" true false) = editing hello_world 5
  /\ on_keyboard_input (H:=ascii_case) [] (editing hello_world 5)
       (key_event "Arrow Left" true false) = editing hello_world 0.
Proof.
  split.
  - destruct (word_left_to_space (H:=ascii_case) []
                (editing hello_world 11) (key_event "Arrow Left" true false)
                eq_refl eq_refl eq_refl
                (editing_cursor_ok hello_world 11 ltac:(simpl; lia)))
      as [Hfound _].
    exact (Hfound 5%nat hello_world_last_space).
  - destruct (word_left_to_space (H:=ascii_case) []
                (editing hello_world 5) (key_event "Arrow Left" true false)
                eq_refl eq_refl eq_refl
                (editing_cursor_ok hello_world 5 ltac:(simpl; lia)))
      as [_ Hnone].
    exact (Hnone hello_no_space).
Defined.

(** C5 as the specification states it does not hold: the text "a\nb\nc"
    does not get the labels 1, 2, 3, 4. *)
Lemma line_numbers_abc_not_four :
  line_numbers_controls
    (_update_controls (H:=ascii_case)
       (editing (pystr "a" ++ NEWLINE ++ pystr "b" ++ NEWLINE ++ pystr "c") 5))
  ≠ [1; 2; 3; 4].
Proof. by vm_compute. Qed.

(** C6 as the specification states it does not hold for every key label:
    on the label "Numpad Numpad 7" the rules strip the prefix once and are
    left with a label of several characters, which gives nothing, while
    [_parse_letter] removes the prefix twice and gives "7". *)
Lemma parse_letter_repeated_keypad_prefix :
  _parse_letter (H:=ascii_case) default_CodeField (pystr "Numpad Numpad 7") false
  ≠ translate (H:=ascii_case) (pystr "Numpad Numpad 7") false
      (is_caps default_CodeField) (custom_shift_mapping default_CodeField).
Proof. by vm_compute. Qed.

(** C6, amended, on the label "Numpad 7": the prefix is stripped and the
    digit is left. *)
Lemma parse_letter_keypad_7 :
  _parse_letter (H:=ascii_case) default_CodeField (pystr "Numpad 7") false
  = pystr "7".
Proof.
  destruct (parse_letter_follows_rules (H:=ascii_case) default_CodeField
              (pystr "Numpad 7") false) as [Heq _].
  - intros rest Hrest (a & b & Hab).
    vm_compute in Hrest. injection Hrest as <-.
    apply (f_equal (@length N)) in Hab.
    rewrite !length_app in Hab. simpl in Hab. lia.
  - rewrite Heq. reflexivity.
Defined.

(** C8 at the extremes: an empty buffer, a deletion at offset 0, cursor
    settings out of range, an insertion, a paste and key presses. *)
Lemma cursor_always_in_range_empty_buffer :
  Forall cursor_ok
    (run (H:=ascii_case) (editing [] 0)
       [ Delete; SetCursor 99; SetCursor (-5); Insert (pystr "a");
         KeyPress (key_event "Backspace" true false) [];
         KeyPress (key_event "V" true false) (pystr "x y");
         KeyPress (key_event "Arrow Right" true false) [];
         KeyPress (key_event "Arrow Left" false false) [];
         Delete; Delete; Delete; Delete ]).
Proof.
  apply (cursor_always_in_range (H:=ascii_case)).
  unfold cursor_ok, len. simpl. lia.
Defined.

(** C9 on the control as it is constructed, which is not focused. *)
Lemma unfocused_ignores_keyboard_default :
  on_keyboard_input (H:=ascii_case) (pystr "clip") default_CodeField
    (key_event "a" false false) = default_CodeField
  /\ on_keyboard_input (H:=ascii_case) (pystr "clip") default_CodeField
       (key_event "V" true false) = default_CodeField.
Proof.
  split; apply (unfocused_ignores_keyboard (H:=ascii_case)); reflexivity.
Defined.

(** C10 with pasting switched off: "xy" is pasted into "ab" at offset 1. *)
Lemma paste_with_pasting_disallowed :
  text (on_keyboard_input (H:=ascii_case) (pystr "xy")
          (set_allow_pasting false (editing (pystr "ab") 1))
          (key_event "V" true false)) = pystr "axyb"
  /\ type_point (on_keyboard_input (H:=ascii_case) (pystr "xy")
                   (set_allow_pasting false (editing (pystr "ab") 1))
                   (key_event "V" true false)) = 3
  /\ allow_pasting (on_keyboard_input (H:=ascii_case) (pystr "xy")
                      (set_allow_pasting false (editing (pystr "ab") 1))
                      (key_event "V" true false)) = false.
Proof.
  destruct (paste_ignores_allow_pasting (H:=ascii_case) false (pystr "xy")
              (editing (pystr "ab") 1) (key_event "V" true false)
              eq_refl eq_refl eq_refl
              (editing_cursor_ok (pystr "ab") 1 ltac:(simpl; lia)))
    as (_ & Ht & Hp & Ha & _).
  exact (conj Ht (conj Hp Ha)).
Defined.

(** ** Further properties of the buffer *)

Section Buffer.
Context `{Py.UnicodeCase}.

Lemma slice_bound_le (n k : Z) : 0 <= n -> (Z.of_nat (Py.slice_bound n k) <= n).
Proof. intros Hn. unfold Py.slice_bound. case_match; lia. Qed.

(** The two slices at one bound are the two parts of the string. *)
Lemma slices_partition s k : Py.slice_to s k ++ Py.slice_from s k = s.
Proof. unfold Py.slice_to, Py.slice_from. apply take_drop. Qed.

Lemma update_controls_flags self :
  show_language_text (_update_controls self) = show_language_text self
  /\ show_line_numbers (_update_controls self) = show_line_numbers self.
Proof.
  destruct self as [t sl sn ap sf ts lg m caps foc tp mv lv ln cb eff].
  unfold _update_controls. cbv zeta.
  cbn [show_language_text show_line_numbers emit set_code_markdown_value
       set_language_text_value].
  by destruct sl, sn.
Qed.

Lemma update_controls_effects self :
  effects (_update_controls self) = effects self ++ repaint self.
Proof.
  destruct self as [t sl sn ap sf ts lg m caps foc tp mv lv ln cb eff].
  unfold _update_controls, repaint. cbv zeta.
  cbn [show_language_text show_line_numbers emit set_code_markdown_value
       set_language_text_value].
  destruct sl, sn; cbn [effects emit set_line_numbers_controls
    set_language_text_value set_code_markdown_value show_language_text
    show_line_numbers];
    rewrite <- ?app_assoc; reflexivity.
Qed.

Lemma insert_letter_unfold self (c : N) :
  insert_letter self [c]
  = emit OnChange
      (_update_controls
         (set_type_point
            (set_text (Py.slice_to (text self) (type_point self) ++ [c]
                       ++ Py.slice_from (text self) (type_point self)) self)
            (type_point self + 1))).
Proof.
  unfold insert_letter. rewrite bool_decide_false by done.
  change (1 <? len [c]) with false. reflexivity.
Qed.

Lemma insert_letter_noop self letter :
  length letter ≠ 1%nat -> insert_letter self letter = self.
Proof.
  intros Hl. unfold insert_letter. case_bool_decide; [done|].
  destruct letter as [|a [|b letter]]; [done..|].
  assert ((1 <? len (a :: b :: letter)) = true) as ->; [|done].
  apply Z.ltb_lt. unfold len. simpl. lia.
Qed.

(** X1. [insert_letter] with a letter of one character puts that character
    into the text at the cursor: between the text before and the text after
    the cursor when the cursor is in range, at the end when the cursor is
    beyond the end, and, for a negative cursor, as far from the end as the
    cursor says (at the front when that is beyond the front). No character
    of the text is lost and the text grows by one. With any other letter
    (empty or longer) the text keeps its length. *)
Theorem insert_letter_grows_by_one (self : CodeField) (letter : str) :
  (forall c : N,
      (0 <= type_point self <= len (text self) ->
       text (insert_letter self [c])
       = take (Z.to_nat (type_point self)) (text self)
         ++ c :: drop (Z.to_nat (type_point self)) (text self))
      /\ (len (text self) < type_point self ->
          text (insert_letter self [c]) = text self ++ [c])
      /\ (type_point self < 0 ->
          text (insert_letter self [c])
          = take (Z.to_nat (len (text self) + type_point self)) (text self)
            ++ c :: drop (Z.to_nat (len (text self) + type_point self))
                      (text self)))
  /\ length (text (insert_letter self letter))
     = if bool_decide (length letter = 1%nat)
       then S (length (text self)) else length (text self).
Proof.
  split.
  - intros c. rewrite insert_letter_unfold. cbn [text emit].
    rewrite update_controls_text.
    cbn [text set_type_point assign_type_point set_text].
    repeat split.
    + intros Hin. by rewrite slice_to_take, slice_from_drop by lia.
    + intros Hbeyond. pose proof (len_nonneg (text self)) as Hn.
      rewrite slice_to_take, slice_from_drop by lia.
      unfold len in Hbeyond.
      rewrite take_ge, drop_ge by lia. done.
    + intros Hneg. unfold Py.slice_to, Py.slice_from, Py.slice_bound.
      rewrite (proj2 (Z.ltb_lt _ _) Hneg).
      replace (Z.to_nat (Z.max 0 (type_point self + len (text self))))
        with (Z.to_nat (len (text self) + type_point self)) by lia.
      done.
  - case_bool_decide as Hl.
    + destruct letter as [|c [|b letter]]; [done| |done].
      rewrite insert_letter_unfold. cbn [text emit].
      rewrite update_controls_text. cbn [text set_type_point
        assign_type_point set_text].
      rewrite !length_app. cbn [length].
      pose proof (f_equal (@length N) (slices_partition (text self) (type_point self)))
        as Hp. rewrite length_app in Hp. lia.
    + by rewrite insert_letter_noop.
Qed.

(** X2. With the cursor in range, inserting a character and deleting before
    the cursor gives back the text and the cursor. *)
Theorem insert_then_remove (self : CodeField) (c : N) :
  cursor_ok self ->
  text (remove_letter (insert_letter self [c])) = text self
  /\ type_point (remove_letter (insert_letter self [c])) = type_point self.
Proof.
  intros Hok. destruct (insert_letter_single self c Hok) as [Ht Hp].
  destruct Hok as [Hlo Hhi]. unfold len in Hhi.
  destruct (remove_letter_inside (insert_letter self [c])) as [Ht' Hp'].
  { rewrite Hp, Ht, !len_app. unfold len.
    rewrite length_take, length_drop. simpl. lia. }
  rewrite Ht', Hp', Hp, Ht. split; [|lia].
  set (p := Z.to_nat (type_point self)).
  replace (Z.to_nat (type_point self + 1 - 1)) with p by lia.
  replace (Z.to_nat (type_point self + 1)) with (S p) by lia.
  assert (length (take p (text self)) = p) as Hlen
    by (rewrite length_take; lia).
  rewrite take_app_length' by done.
  rewrite (app_assoc (take p (text self)) [c]).
  rewrite drop_app_length' by (rewrite length_app, Hlen; simpl; lia).
  apply take_drop.
Qed.

(** X3. With a character [c] before the cursor, deleting it and inserting
    [c] again gives back the text and the cursor. *)
Theorem remove_then_insert (self : CodeField) (c : N) :
  1 <= type_point self <= len (text self) ->
  text self !! Z.to_nat (type_point self - 1) = Some c ->
  text (insert_letter (remove_letter self) [c]) = text self
  /\ type_point (insert_letter (remove_letter self) [c]) = type_point self.
Proof.
  intros Hp Hc. destruct (remove_letter_inside self Hp) as [Ht Hq].
  destruct (insert_letter_single (remove_letter self) c (remove_letter_ok self))
    as [Ht' Hq'].
  rewrite Ht', Hq', Hq, Ht. split; [|lia].
  unfold len in Hp.
  set (q := Z.to_nat (type_point self - 1)) in *.
  replace (Z.to_nat (type_point self)) with (S q) by lia.
  assert (length (take q (text self)) = q) as Hlen
    by (rewrite length_take; lia).
  rewrite take_app_length', drop_app_length' by done.
  simpl. by apply take_drop_middle.
Qed.

(** X4. With the cursor at 0, [remove_letter] puts the text without its
    last character in front of the text; the cursor stays at 0. The text is
    the same afterwards only if it has at most one character. *)
Theorem remove_letter_at_start_grows (self : CodeField) :
  type_point self = 0 ->
  text (remove_letter self)
  = take (length (text self) - 1) (text self) ++ text self
  /\ type_point (remove_letter self) = 0
  /\ (text (remove_letter self) = text self <-> (length (text self) <= 1)%nat).
Proof.
  intros H0. destruct (remove_letter_at_start self H0) as [Ht Hp].
  split; [exact Ht|]. split; [exact Hp|]. rewrite Ht. split.
  - intros Heq. apply (f_equal (@length N)) in Heq.
    rewrite length_app, length_take in Heq. lia.
  - intros Hle. replace (length (text self) - 1)%nat with 0%nat by lia. done.
Qed.

Lemma insert_letter_effects self (c : N) :
  effects (insert_letter self [c]) = effects self ++ repaint self ++ [OnChange].
Proof.
  rewrite insert_letter_unfold. cbn [effects emit].
  rewrite update_controls_effects. by rewrite <- app_assoc.
Qed.

Lemma remove_letter_effects self :
  effects (remove_letter self) = effects self ++ repaint self ++ [OnChange].
Proof.
  unfold remove_letter. cbv zeta. cbn [effects emit].
  rewrite update_controls_effects. by rewrite <- app_assoc.
Qed.

Lemma insert_letter_repaint self letter :
  repaint (insert_letter self letter) = repaint self.
Proof.
  unfold insert_letter. do 2 (case_match; [done|]). cbv zeta.
  unfold repaint. cbn [show_language_text show_line_numbers emit].
  by destruct (update_controls_flags
    (set_type_point
       (set_text (Py.slice_to (text self) (type_point self) ++ letter
                  ++ Py.slice_from (text self) (type_point self)) self)
       (type_point
          (set_text (Py.slice_to (text self) (type_point self) ++ letter
                     ++ Py.slice_from (text self) (type_point self)) self) + 1)))
    as [-> ->].
Qed.

(** X5. Every insertion and every deletion repaints the widgets that are
    switched on and then fires [on_change], once; [insert_word] does so
    once per character of the word, in order, and nothing else. *)
Theorem one_change_per_character (self : CodeField) (word : str) :
  effects (insert_word self word)
  = effects self
    ++ mjoin (replicate (length word) (repaint self ++ [OnChange]))
  /\ effects (remove_letter self) = effects self ++ repaint self ++ [OnChange].
Proof.
  split; [|apply remove_letter_effects].
  unfold insert_word. revert self.
  induction word as [|c word IH]; intros self.
  - simpl. by rewrite app_nil_r.
  - cbn [Py.letters fmap list_fmap foldl length replicate mjoin list_join].
    unfold Py.letters in IH.
    rewrite IH, insert_letter_effects, insert_letter_repaint.
    by rewrite <- !app_assoc.
Qed.

(** X6. With the cursor in range, inserting a word and deleting as many
    characters as the word has gives back the text and the cursor. *)
Theorem insert_word_then_remove (self : CodeField) (word : str) :
  cursor_ok self ->
  text (Nat.iter (length word) remove_letter (insert_word self word)) = text self
  /\ type_point (Nat.iter (length word) remove_letter (insert_word self word))
     = type_point self.
Proof.
  intros Hok. destruct (insert_word_text self word Hok) as [Ht Hp].
  destruct Hok as [Hlo Hhi]. unfold len in *.
  destruct (remove_letter_iter (length word) (insert_word self word)) as [Ht' Hp'].
  { rewrite Hp, Ht. unfold len. rewrite !length_app, length_take, length_drop. lia. }
  rewrite Ht', Hp', Hp, Ht. split; [|unfold len; lia].
  set (p := Z.to_nat (type_point self)).
  replace (Z.to_nat (type_point self + Z.of_nat (length word)))
    with (p + length word)%nat by lia.
  replace (p + length word - length word)%nat with p by lia.
  assert (length (take p (text self)) = p) as Hlen
    by (rewrite length_take; lia).
  rewrite take_app_length' by done.
  rewrite (app_assoc (take p (text self)) word).
  rewrite drop_app_length' by (rewrite length_app, Hlen; lia).
  apply take_drop.
Qed.

End Buffer.

(** ** Further properties of the navigation *)

Section Navigation.
Context `{Py.UnicodeCase}.

Lemma rfind_single_bounds c s : -1 <= Py.rfind s [c] < len s.
Proof.
  unfold Py.rfind, Py.index_or_minus1, len.
  destruct (Py.rfind_index [c] s) as [i|] eqn:E; [|lia].
  apply rfind_index_single_Some in E as [Hi _].
  apply lookup_lt_Some in Hi. lia.
Qed.

Lemma find_single_bounds c s : -1 <= Py.find s [c] < len s.
Proof.
  unfold Py.find, Py.index_or_minus1, len.
  destruct (Py.find_index [c] s) as [i|] eqn:E; [|lia].
  apply find_index_single_Some in E as [Hi _].
  apply lookup_lt_Some in Hi. lia.
Qed.

Lemma find_first_at c s (o : nat) : first_at c s o -> Py.find s [c] = Z.of_nat o.
Proof.
  intros [Hat Hfirst]. unfold Py.find.
  destruct (Py.find_index [c] s) as [i|] eqn:E.
  - apply find_index_single_Some in E as [Hi Hbefore]. simpl. f_equal.
    destruct (Nat.lt_trichotomy i o) as [Hlt|[->|Hgt]]; [|done|].
    + exfalso. by apply (Hfirst i).
    + exfalso. by apply (Hbefore o).
  - exfalso. by eapply find_index_single_None.
Qed.

Lemma find_none_at_all c s : (forall j, s !! j ≠ Some c) -> Py.find s [c] = -1.
Proof.
  intros Hnone. unfold Py.find.
  destruct (Py.find_index [c] s) as [i|] eqn:E; [|done].
  apply find_index_single_Some in E as [Hi _]. exfalso. by apply (Hnone i).
Qed.

Lemma assign_type_point_same self : assign_type_point (type_point self) self = self.
Proof. by destruct self. Qed.

Lemma set_type_point_in_range self to :
  0 <= to <= len (text self) -> set_type_point self to = assign_type_point to self.
Proof. intros Hto. unfold set_type_point. f_equal. lia. Qed.

(** What the dispatcher does with each arrow key. *)
Lemma arrow_left_unfold clipboard self event :
  focused self = true -> key event = pystr "Arrow Left" ->
  on_keyboard_input clipboard self event
  = set_type_point self
      (if ctrl event
       then (if bool_decide (Py.rfind (get_text_up_to_point self) SPACE ≠ -1)
             then Py.rfind (get_text_up_to_point self) SPACE else 0)
       else type_point self - 1).
Proof.
  intros Hf Hkey. unfold on_keyboard_input. rewrite Hf, Hkey.
  simpl negb. cbv iota. decide_key. by destruct (ctrl event).
Qed.

Lemma arrow_right_unfold clipboard self event :
  focused self = true -> key event = pystr "Arrow Right" ->
  on_keyboard_input clipboard self event
  = set_type_point self
      (if ctrl event
       then len (get_text_up_to_point self)
            + (if bool_decide (Py.find (get_text_after_point self) SPACE ≠ -1)
               then type_point self + Py.find (get_text_after_point self) SPACE
               else len (get_text_after_point self))
       else type_point self + 1).
Proof.
  intros Hf Hkey. unfold on_keyboard_input. rewrite Hf, Hkey.
  simpl negb. cbv iota. decide_key. by destruct (ctrl event).
Qed.

Lemma arrow_up_unfold clipboard self event :
  focused self = true -> key event = pystr "Arrow Up" ->
  on_keyboard_input clipboard self event
  = set_type_point self
      (if bool_decide (Py.rfind (get_text_up_to_point self) NEWLINE ≠ -1)
       then Py.rfind (get_text_up_to_point self) NEWLINE else type_point self).
Proof.
  intros Hf Hkey. unfold on_keyboard_input. rewrite Hf, Hkey.
  simpl negb. cbv iota. decide_key. done.
Qed.

Lemma arrow_down_unfold clipboard self event :
  focused self = true -> key event = pystr "Arrow Down" ->
  on_keyboard_input clipboard self event
  = set_type_point self
      (len (get_text_up_to_point self)
       + (if bool_decide (Py.find (get_text_after_point self) NEWLINE ≠ -1)
          then type_point self + Py.find (get_text_after_point self) NEWLINE
          else len (get_text_after_point self))).
Proof.
  intros Hf Hkey. unfold on_keyboard_input. rewrite Hf, Hkey.
  simpl negb. cbv iota. decide_key. done.
Qed.

Lemma len_before self :
  cursor_ok self -> len (get_text_up_to_point self) = type_point self.
Proof.
  intros Hok. rewrite (text_up_to_point _ Hok). destruct Hok as [Hlo Hhi].
  unfold len in *. rewrite length_take. lia.
Qed.

Lemma len_after self :
  cursor_ok self ->
  len (get_text_after_point self) = len (text self) - type_point self.
Proof.
  intros Hok. rewrite (text_after_point _ Hok). destruct Hok as [Hlo Hhi].
  unfold len in *. rewrite length_drop. lia.
Qed.

(** X7. On a focused control an arrow key, with or without ctrl, changes
    nothing but the cursor, which it leaves in range: the text is not
    touched, nothing is repainted and no callback fires. *)
Theorem arrows_move_only_the_cursor (clipboard : str) (self : CodeField)
    (event : KeyboardEvent) :
  focused self = true ->
  key event ∈ arrow_labels ->
  exists z, 0 <= z <= len (text self)
    /\ on_keyboard_input clipboard self event = assign_type_point z self.
Proof.
  intros Hf Hk. unfold arrow_labels in Hk.
  rewrite !elem_of_cons, elem_of_nil in Hk.
  pose proof (len_nonneg (text self)) as Hn.
  assert (forall to, exists z, 0 <= z <= len (text self)
            /\ set_type_point self to = assign_type_point z self) as Hset.
  { intros to. exists (Z.max 0 (Z.min (len (text self)) to)). split; [lia|done]. }
  destruct Hk as [Hk|[Hk|[Hk|[Hk|[]]]]].
  - rewrite (arrow_left_unfold _ _ _ Hf Hk). apply Hset.
  - rewrite (arrow_right_unfold _ _ _ Hf Hk). apply Hset.
  - rewrite (arrow_up_unfold _ _ _ Hf Hk). apply Hset.
  - rewrite (arrow_down_unfold _ _ _ Hf Hk). apply Hset.
Qed.

(** X8. On a focused control with the cursor in range, plain Right and then
    plain Left give back the state when the cursor is not at the end, and
    plain Left and then plain Right give it back when the cursor is not at
    0; at the end plain Right, and at 0 plain Left, leave the state as it
    is. *)
Theorem left_right_round_trip (clipboard : str) (self : CodeField)
    (left right : KeyboardEvent) :
  focused self = true ->
  cursor_ok self ->
  key left = pystr "Arrow Left" -> ctrl left = false ->
  key right = pystr "Arrow Right" -> ctrl right = false ->
  (type_point self < len (text self) ->
   on_keyboard_input clipboard (on_keyboard_input clipboard self right) left = self)
  /\ (0 < type_point self ->
      on_keyboard_input clipboard (on_keyboard_input clipboard self left) right = self)
  /\ (type_point self = len (text self) ->
      on_keyboard_input clipboard self right = self)
  /\ (type_point self = 0 -> on_keyboard_input clipboard self left = self).
Proof.
  intros Hf [Hlo Hhi] Hkl Hcl Hkr Hcr.
  rewrite (arrow_right_unfold _ _ _ Hf Hkr), (arrow_left_unfold _ _ _ Hf Hkl).
  rewrite Hcl, Hcr.
  repeat split.
  - intros Hlt. rewrite (set_type_point_in_range self) by lia.
    rewrite arrow_left_unfold by done. rewrite Hcl.
    cbn [type_point assign_type_point].
    rewrite set_type_point_in_range by (cbn [text assign_type_point]; lia).
    replace (type_point self + 1 - 1) with (type_point self) by lia.
    by destruct self.
  - intros Hgt. rewrite (set_type_point_in_range self) by lia.
    rewrite arrow_right_unfold by done. rewrite Hcr.
    cbn [type_point assign_type_point].
    rewrite set_type_point_in_range by (cbn [text assign_type_point]; lia).
    replace (type_point self - 1 + 1) with (type_point self) by lia.
    by destruct self.
  - intros Heq. unfold set_type_point.
    replace (Z.max 0 (Z.min (len (text self)) (type_point self + 1)))
      with (type_point self) by lia.
    apply assign_type_point_same.
  - intros Heq. unfold set_type_point.
    replace (Z.max 0 (Z.min (len (text self)) (type_point self - 1)))
      with (type_point self) by lia.
    apply assign_type_point_same.
Qed.

(** X9. On a focused control with the cursor in range, Up moves the cursor
    onto the last newline before it (to the index of that newline); if
    there is no newline before the cursor the state is left as it is. *)
Theorem arrow_up_to_newline (clipboard : str) (self : CodeField)
    (event : KeyboardEvent) :
  focused self = true ->
  key event = pystr "Arrow Up" ->
  cursor_ok self ->
  let p := Z.to_nat (type_point self) in
  (forall k, last_before 10 (text self) p k ->
     on_keyboard_input clipboard self event = assign_type_point (Z.of_nat k) self)
  /\ (none_before 10 (text self) p ->
      on_keyboard_input clipboard self event = self).
Proof.
  intros Hf Hkey Hok p.
  rewrite (arrow_up_unfold _ _ _ Hf Hkey), (text_up_to_point _ Hok). fold p.
  destruct Hok as [Hlo Hhi]. unfold len in Hhi.
  assert (p <= length (text self))%nat as Hpl by (subst p; lia).
  unfold NEWLINE. split.
  - intros k Hk. rewrite (rfind_before_found _ _ _ _ Hpl Hk).
    rewrite bool_decide_true by lia. destruct Hk as (Hkp & _).
    apply set_type_point_in_range. unfold len. lia.
  - intros Hnone. rewrite (rfind_before_none _ _ _ Hnone).
    rewrite bool_decide_false by lia.
    rewrite set_type_point_in_range by (unfold len; lia).
    apply assign_type_point_same.
Qed.

(** X10. On a focused control with the cursor in range, Down with the
    first newline of the text after the cursor at offset [o] of that text
    sets the cursor to twice the cursor plus [o], clipped to the length of
    the text (so from cursor 0 it reaches that newline); if there is no
    newline after the cursor it sets the cursor to the end. *)
Theorem arrow_down_target (clipboard : str) (self : CodeField)
    (event : KeyboardEvent) :
  focused self = true ->
  key event = pystr "Arrow Down" ->
  cursor_ok self ->
  let after := drop (Z.to_nat (type_point self)) (text self) in
  (forall o, first_at 10 after o ->
     on_keyboard_input clipboard self event
     = assign_type_point
         (Z.min (len (text self)) (2 * type_point self + Z.of_nat o)) self)
  /\ ((forall j, after !! j ≠ Some 10%N) ->
      on_keyboard_input clipboard self event
      = assign_type_point (len (text self)) self).
Proof.
  intros Hf Hkey Hok after.
  rewrite (arrow_down_unfold _ _ _ Hf Hkey).
  rewrite (len_before _ Hok), (len_after _ Hok), (text_after_point _ Hok).
  fold after. destruct Hok as [Hlo Hhi]. unfold NEWLINE, set_type_point.
  split.
  - intros o Ho. rewrite (find_first_at _ _ _ Ho).
    rewrite bool_decide_true by lia. f_equal. lia.
  - intros Hnone. rewrite (find_none_at_all _ _ Hnone).
    rewrite bool_decide_false by lia. f_equal. lia.
Qed.

(** X11. On a focused control with the cursor in range, Left and Up (with
    or without ctrl) never move the cursor forward, and Right and Down
    never move it backward. *)
Theorem arrows_keep_their_direction (clipboard : str) (self : CodeField)
    (event : KeyboardEvent) :
  focused self = true ->
  cursor_ok self ->
  (key event ∈ [pystr "Arrow Left"; pystr "Arrow Up"] ->
   type_point (on_keyboard_input clipboard self event) <= type_point self)
  /\ (key event ∈ [pystr "Arrow Right"; pystr "Arrow Down"] ->
      type_point self <= type_point (on_keyboard_input clipboard self event)).
Proof.
  intros Hf Hok.
  pose proof (len_before _ Hok) as Hb. pose proof (len_after _ Hok) as Ha.
  pose proof (rfind_single_bounds 32 (get_text_up_to_point self)) as Hrs.
  pose proof (rfind_single_bounds 10 (get_text_up_to_point self)) as Hrn.
  pose proof (find_single_bounds 32 (get_text_after_point self)) as Hfs.
  pose proof (find_single_bounds 10 (get_text_after_point self)) as Hfn.
  destruct Hok as [Hlo Hhi].
  split; intros Hk; rewrite !elem_of_cons, elem_of_nil in Hk;
    destruct Hk as [Hk|[Hk|[]]].
  - rewrite (arrow_left_unfold _ _ _ Hf Hk). unfold set_type_point, SPACE.
    cbn [type_point assign_type_point].
    destruct (ctrl event); [case_bool_decide|]; lia.
  - rewrite (arrow_up_unfold _ _ _ Hf Hk). unfold set_type_point, NEWLINE.
    cbn [type_point assign_type_point]. case_bool_decide; lia.
  - rewrite (arrow_right_unfold _ _ _ Hf Hk). unfold set_type_point, SPACE.
    cbn [type_point assign_type_point].
    destruct (ctrl event); [case_bool_decide|]; lia.
  - rewrite (arrow_down_unfold _ _ _ Hf Hk). unfold set_type_point, NEWLINE.
    cbn [type_point assign_type_point]. case_bool_decide; lia.
Qed.

(** X12. On a focused control with the cursor in range and not at 0, Left
    moves the cursor strictly backward, with ctrl as well as without: a
    run of Left keys reaches the start of the buffer. *)
Theorem arrow_left_makes_progress (clipboard : str) (self : CodeField)
    (event : KeyboardEvent) :
  focused self = true ->
  key event = pystr "Arrow Left" ->
  cursor_ok self ->
  0 < type_point self ->
  0 <= type_point (on_keyboard_input clipboard self event) < type_point self.
Proof.
  intros Hf Hk Hok Hpos.
  pose proof (len_before _ Hok) as Hb.
  pose proof (rfind_single_bounds 32 (get_text_up_to_point self)) as Hrs.
  destruct Hok as [Hlo Hhi].
  rewrite (arrow_left_unfold _ _ _ Hf Hk). unfold set_type_point, SPACE.
  cbn [type_point assign_type_point].
  destruct (ctrl event); [case_bool_decide|]; lia.
Qed.

Lemma word_delete_result clipboard self event :
  focused self = true ->
  key event = pystr "Backspace" ->
  ctrl event = true ->
  cursor_ok self ->
  exists k : nat,
    (k <= Z.to_nat (type_point self))%nat
    /\ (0 < type_point self -> (k < Z.to_nat (type_point self))%nat)
    /\ text (on_keyboard_input clipboard self event)
       = take k (text self) ++ drop (Z.to_nat (type_point self)) (text self)
    /\ type_point (on_keyboard_input clipboard self event) = Z.of_nat k.
Proof.
  intros Hf Hkey Hctrl Hok.
  pose proof (len_before _ Hok) as Hb.
  pose proof (rfind_single_bounds 32 (get_text_up_to_point self)) as Hrs.
  unfold on_keyboard_input. rewrite Hf, Hkey, Hctrl. simpl negb. cbv iota.
  decide_key. rewrite foldl_ignore, range_down_length.
  destruct Hok as [Hlo Hhi]. unfold SPACE.
  set (stop := if bool_decide (Py.rfind (get_text_up_to_point self) [32%N] ≠ -1)
               then Py.rfind (get_text_up_to_point self) [32%N] else 0).
  assert (0 <= stop <= type_point self /\ (0 < type_point self -> stop < type_point self))
    as (Hs0 & Hs1).
  { subst stop. case_bool_decide; lia. }
  clearbody stop. exists (Z.to_nat stop).
  destruct (remove_letter_iter (Z.to_nat (type_point self - stop)) self)
    as [Ht Hp]; [lia|].
  rewrite Ht, Hp. repeat split; [lia|lia| |lia].
  do 2 f_equal. lia.
Qed.

(** X13. On a focused control with the cursor in range, Backspace with
    ctrl leaves the text after the cursor as it is, and when the cursor is
    not at 0 it removes at least one character: the text gets shorter by
    as much as the cursor moves back. *)
Theorem word_delete_keeps_text_after_cursor (clipboard : str)
    (self : CodeField) (event : KeyboardEvent) :
  focused self = true ->
  key event = pystr "Backspace" ->
  ctrl event = true ->
  cursor_ok self ->
  get_text_after_point (on_keyboard_input clipboard self event)
  = get_text_after_point self
  /\ len (text self) - len (text (on_keyboard_input clipboard self event))
     = type_point self - type_point (on_keyboard_input clipboard self event)
  /\ (0 < type_point self ->
      len (text (on_keyboard_input clipboard self event)) < len (text self)).
Proof.
  intros Hf Hkey Hctrl Hok.
  destruct (word_delete_result clipboard self event Hf Hkey Hctrl Hok)
    as (k & Hk & Hlt & Ht & Hp).
  rewrite (text_after_point _ Hok).
  destruct Hok as [Hlo Hhi].
  unfold get_text_after_point. rewrite Ht, Hp.
  rewrite slice_from_drop by lia. rewrite Nat2Z.id.
  unfold len in *.
  assert (length (take k (text self)) = k) as Hlen
    by (rewrite length_take; lia).
  split; [by rewrite drop_app_length'|].
  rewrite length_app, length_take, length_drop.
  split; [lia|]. intros Hpos. specialize (Hlt Hpos). lia.
Qed.

End Navigation.

(** ** Further properties of focus and rendering *)

Section Focus.
Context `{Py.UnicodeCase}.

Lemma update_controls_settings self :
  settings (_update_controls self) = settings self.
Proof.
  destruct self as [t sl sn ap sf ts lg m caps foc tp mv lv ln cb eff].
  unfold _update_controls. cbv zeta.
  cbn [show_language_text show_line_numbers emit set_code_markdown_value
       set_language_text_value].
  by destruct sl, sn.
Qed.

Lemma insert_letter_settings self letter :
  settings (insert_letter self letter) = settings self.
Proof.
  unfold insert_letter. do 2 (case_match; [done|]). cbv zeta.
  change (settings (emit OnChange ?s)) with (settings s).
  by rewrite update_controls_settings.
Qed.

Lemma remove_letter_settings self :
  settings (remove_letter self) = settings self.
Proof.
  unfold remove_letter. cbv zeta.
  change (settings (emit OnChange ?s)) with (settings s).
  by rewrite update_controls_settings.
Qed.

Lemma insert_word_settings self word :
  settings (insert_word self word) = settings self.
Proof.
  unfold insert_word. revert self.
  induction (Py.letters word) as [|l ls IH]; intros self; [done|].
  simpl. by rewrite IH, insert_letter_settings.
Qed.

Lemma remove_letter_iter_settings (n : nat) self :
  settings (Nat.iter n remove_letter self) = settings self.
Proof.
  induction n as [|n IH]; [done|].
  by rewrite Nat.iter_succ, remove_letter_settings.
Qed.

Lemma feed_unfocused self events :
  focused self = false -> feed self events = self.
Proof.
  intros Hf. unfold feed. induction events as [|[e c] events IH]; [done|].
  simpl. unfold on_keyboard_input at 2. rewrite Hf. simpl. exact IH.
Qed.

(** X14. Escape on a focused control takes the focus away: [on_focus] is
    called with [False], the focus border is taken off and the container
    repainted, and the text and the cursor stay. Whatever keyboard events
    follow, the state stays as Escape left it. *)
Theorem escape_unfocuses_for_good (clipboard : str) (self : CodeField)
    (event : KeyboardEvent) (events : list (KeyboardEvent * str)) :
  focused self = true ->
  key event = pystr "Escape" ->
  let r := on_keyboard_input clipboard self event in
  feed r events = r
  /\ focused r = false
  /\ container_border r = false
  /\ effects r = effects self ++ [OnFocus false; Update MarkdownContainer]
  /\ text r = text self
  /\ type_point r = type_point self.
Proof.
  intros Hf Hkey r.
  assert (r = set_focus self false) as ->.
  { subst r. unfold on_keyboard_input. rewrite Hf, Hkey. simpl negb. cbv iota.
    decide_key. done. }
  split; [by apply feed_unfocused|].
  unfold set_focus. cbn. by rewrite <- app_assoc.
Qed.

(** X15. [will_unmount] takes the focus away without a word: no callback
    fires and the focus border is left as it was; every keyboard event that
    is still delivered afterwards leaves the state as it is. *)
Theorem will_unmount_silences (self : CodeField)
    (events : list (KeyboardEvent * str)) :
  feed (will_unmount self) events = will_unmount self
  /\ effects (will_unmount self) = effects self
  /\ container_border (will_unmount self) = container_border self.
Proof. split; [by apply feed_unfocused|done]. Qed.

Lemma settings_border a b :
  settings a = settings b -> border_shows_focus b -> border_shows_focus a.
Proof.
  unfold settings, border_shows_focus. intros Hs Hb.
  injection Hs as _ _ _ Hsf _ _ _ _ Hfoc Hcb. by rewrite Hcb, Hfoc, Hsf.
Qed.

Lemma set_focus_border self focus : border_shows_focus (set_focus self focus).
Proof. done. Qed.

Lemma on_keyboard_input_border clipboard self event :
  border_shows_focus self ->
  border_shows_focus (on_keyboard_input clipboard self event).
Proof.
  intros Hb. unfold on_keyboard_input.
  destruct (focused self) eqn:Hf; simpl negb; cbv iota; [|done].
  case_bool_decide.
  { destruct (ctrl event); simpl negb; cbv iota.
    - rewrite foldl_ignore.
      apply (settings_border _ self); [apply remove_letter_iter_settings | done].
    - apply (settings_border _ self); [apply remove_letter_settings | done]. }
  case_bool_decide; [apply set_focus_border|].
  case_bool_decide; [exact Hb|].
  case_bool_decide; [by destruct (ctrl event)|].
  cbv zeta.
  set (self' := if bool_decide (key event = pystr "Tab")
                then insert_word self (Py.repeat SPACE (tab_spacing self))
                else self).
  assert (border_shows_focus self') as Hb'.
  { subst self'. case_bool_decide; [|done].
    apply (settings_border _ self); [apply insert_word_settings | done]. }
  clearbody self'.
  case_bool_decide; [by destruct (ctrl event)|].
  case_bool_decide; [done|].
  case_bool_decide; [done|].
  destruct (ctrl event && bool_decide (key event = pystr "V")).
  { apply (settings_border _ self'); [apply insert_word_settings | done]. }
  case_bool_decide; [done|].
  apply (settings_border _ self'); [apply insert_letter_settings | done].
Qed.

Lemma perform_border self op :
  border_shows_focus self -> border_shows_focus (perform self op).
Proof.
  intros Hb. destruct op; simpl.
  - apply (settings_border _ self); [apply insert_letter_settings | done].
  - apply (settings_border _ self); [apply insert_word_settings | done].
  - apply (settings_border _ self); [apply remove_letter_settings | done].
  - done.
  - apply set_focus_border.
  - by apply on_keyboard_input_border.
Qed.

(** X16. From the construction of the control on, through every sequence
    of insertions, deletions, cursor settings, clicks and keyboard events,
    the focus border is drawn exactly when the control is focused and the
    border is switched on. *)
Theorem border_follows_focus (text0 : str) (show_language show_lines
    pasting show_border : bool) (tab : Z) (lang : str)
    (mapping : option (gmap str str)) (ops : list Operation) :
  Forall border_shows_focus
    (run (__init__ text0 show_language show_lines pasting show_border tab
            lang mapping) ops).
Proof.
  assert (border_shows_focus
            (__init__ text0 show_language show_lines pasting show_border tab
               lang mapping)) as Hinit by done.
  revert Hinit.
  generalize (__init__ text0 show_language show_lines pasting show_border tab
                lang mapping) as self.
  induction ops as [|op ops IH]; intros self Hb; simpl.
  - constructor.
  - constructor; [by apply perform_border|]. by apply IH, perform_border.
Qed.

Lemma update_controls_markdown self :
  code_markdown_value (_update_controls self)
  = _code self (if bool_decide (text self ≠ []) then text self else SPACE).
Proof. unfold _update_controls. by repeat case_match. Qed.

Lemma update_controls_language_text self :
  show_language_text self = true ->
  language_text_value (_update_controls self) = Py.upper (language self).
Proof.
  intros Hl. destruct self as [t sl sn ap sf ts lg m caps foc tp mv lv ln cb eff].
  simpl in Hl. subst sl. unfold _update_controls. cbv zeta.
  cbn [show_language_text show_line_numbers emit set_code_markdown_value
       set_language_text_value].
  by destruct sn.
Qed.

Lemma update_controls_rendered self : rendered (_update_controls self).
Proof.
  pose proof (update_controls_settings self) as Hs.
  unfold settings in Hs. injection Hs as Hsl Hsn _ _ _ Hlg _ _ _ _.
  unfold rendered.
  rewrite update_controls_text, Hlg, Hsl, Hsn, update_controls_markdown,
    code_escapes_backticks, update_controls_line_numbers.
  split; [by destruct (text self)|].
  split; [apply update_controls_language_text|].
  intros ->. unfold Py.split, NEWLINE, len. rewrite split_go_single_length.
  fold (line_count (text self)). apply range_from_1.
Qed.

Lemma insert_letter_rendered self letter :
  rendered self -> rendered (insert_letter self letter).
Proof.
  intros Hr. unfold insert_letter. do 2 (case_match; [done|]). cbv zeta.
  apply update_controls_rendered.
Qed.

Lemma remove_letter_rendered self : rendered (remove_letter self).
Proof. apply update_controls_rendered. Qed.

Lemma insert_word_rendered self word :
  rendered self -> rendered (insert_word self word).
Proof.
  unfold insert_word. revert self.
  induction (Py.letters word) as [|l ls IH]; intros self Hr; [done|].
  simpl. by apply IH, insert_letter_rendered.
Qed.

Lemma remove_letter_iter_rendered (n : nat) self :
  rendered self -> rendered (Nat.iter n remove_letter self).
Proof.
  intros Hr. destruct n as [|n]; [done|].
  rewrite Nat.iter_succ. apply remove_letter_rendered.
Qed.

Lemma on_keyboard_input_rendered clipboard self event :
  rendered self -> rendered (on_keyboard_input clipboard self event).
Proof.
  intros Hr. unfold on_keyboard_input.
  destruct (focused self); simpl negb; cbv iota; [|done].
  case_bool_decide.
  { destruct (ctrl event); simpl negb; cbv iota.
    - rewrite foldl_ignore. by apply remove_letter_iter_rendered.
    - apply remove_letter_rendered. }
  case_bool_decide; [done|].
  case_bool_decide; [done|].
  case_bool_decide; [by destruct (ctrl event)|].
  cbv zeta.
  set (self' := if bool_decide (key event = pystr "Tab")
                then insert_word self (Py.repeat SPACE (tab_spacing self))
                else self).
  assert (rendered self') as Hr'.
  { subst self'. case_bool_decide; [by apply insert_word_rendered|done]. }
  clearbody self'.
  case_bool_decide; [by destruct (ctrl event)|].
  case_bool_decide; [done|].
  case_bool_decide; [done|].
  destruct (ctrl event && bool_decide (key event = pystr "V"));
    [by apply insert_word_rendered|].
  case_bool_decide; [done|]. by apply insert_letter_rendered.
Qed.

Lemma perform_rendered self op : rendered self -> rendered (perform self op).
Proof.
  intros Hr. destruct op; simpl.
  - by apply insert_letter_rendered.
  - by apply insert_word_rendered.
  - apply remove_letter_rendered.
  - done.
  - done.
  - by apply on_keyboard_input_rendered.
Qed.

(** X17. Once the control is mounted the widgets show the buffer, and they
    keep doing so through every sequence of insertions, deletions, cursor
    settings, clicks and keyboard events: the markdown holds the fence
    around the escaped text (a space for the empty text), and the language
    label and the line numbers, where switched on, hold the upper-cased
    language and one label per line of the text. *)
Theorem widgets_show_the_buffer (self : CodeField) (ops : list Operation) :
  rendered (did_mount self) /\ Forall rendered (run (did_mount self) ops).
Proof.
  assert (rendered (did_mount self)) as Hr by apply update_controls_rendered.
  split; [exact Hr|]. revert Hr. generalize (did_mount self) as s.
  induction ops as [|op ops IH]; intros s Hr; simpl.
  - constructor.
  - constructor; [by apply perform_rendered|]. by apply IH, perform_rendered.
Qed.

Lemma escape_never_starts_with_backtick (t : str) :
  head (escape_backticks t) ≠ Some 96%N.
Proof.
  destruct t as [|c t]; [done|]. unfold escape_backticks. simpl.
  case_bool_decide; simpl; congruence.
Qed.

Lemma unescape_escape (t : str) : unescape_backticks (escape_backticks t) = t.
Proof.
  induction t as [|c t IH]; [done|].
  change (escape_backticks (c :: t))
    with ((if bool_decide (c = 96%N) then [92%N; 96%N] else [c])
          ++ escape_backticks t).
  case_bool_decide as Hc.
  - subst c. simpl. by rewrite IH.
  - cbn [app unescape_backticks].
    rewrite (bool_decide_false (head (escape_backticks t) = Some 96%N))
      by apply escape_never_starts_with_backtick.
    by rewrite andb_false_r, IH.
Qed.

(** X18. [_code] loses nothing: two texts with the same code block are the
    same text. The markdown that [_update_controls] sets is the same for
    two texts only if the texts are the same or one is empty and the other
    a single space. *)
Theorem code_block_determines_text (self : CodeField) (t1 t2 : str) :
  (_code self t1 = _code self t2 -> t1 = t2)
  /\ (code_markdown_value (_update_controls (set_text t1 self))
      = code_markdown_value (_update_controls (set_text t2 self))
      -> shown_text t1 = shown_text t2).
Proof.
  assert (forall a b, _code self a = _code self b -> a = b) as Hinj.
  { intros a b. rewrite !code_escapes_backticks. intros Heq.
    apply app_inv_head, app_inv_head, app_inv_head, app_inv_tail in Heq.
    by rewrite <- (unescape_escape a), Heq, unescape_escape. }
  split; [apply Hinj|].
  rewrite !update_controls_markdown. cbn [text set_text].
  change (_code (set_text t1 self)) with (_code self).
  change (_code (set_text t2 self)) with (_code self).
  intros Heq. apply Hinj in Heq. by destruct t1, t2.
Qed.

End Focus.

(** ** Further properties of typing *)

Section Typing.
Context `{Py.UnicodeCase}.

(** A key that the dispatcher does not handle itself is translated, and
    what the translation gives is inserted. *)
Lemma printable_key_unfold clipboard self event :
  focused self = true ->
  key event ∉ dispatched_labels ->
  ctrl event && bool_decide (key event = pystr "V") = false ->
  on_keyboard_input clipboard self event
  = if bool_decide (_parse_letter self (key event) (shift event) = [])
    then self
    else insert_letter self (_parse_letter self (key event) (shift event)).
Proof.
  intros Hf Hk Hv. unfold dispatched_labels in Hk.
  rewrite !not_elem_of_cons in Hk.
  destruct Hk as (Hk1 & Hk2 & Hk3 & Hk4 & Hk5 & Hk6 & Hk7 & Hk8 & _).
  unfold on_keyboard_input. rewrite Hf. simpl negb. cbv iota zeta.
  rewrite (bool_decide_false _ Hk1), (bool_decide_false _ Hk2),
    (bool_decide_false _ Hk3), (bool_decide_false _ Hk4),
    (bool_decide_false _ Hk5), (bool_decide_false _ Hk6),
    (bool_decide_false _ Hk7), (bool_decide_false _ Hk8).
  by rewrite Hv.
Qed.

(** The translation of a label that is not Enter, that the shift map does
    not touch, and that is no keypad label. *)
Lemma parse_letter_plain self letter isShift :
  letter ≠ pystr "Enter" ->
  (isShift = true -> custom_shift_mapping self !! letter = None) ->
  Py.startswith letter (pystr "Numpad") = false ->
  keypad_symbol letter = None ->
  _parse_letter self letter isShift
  = if 1 <? len letter then []
    else if is_caps self || isShift then Py.upper letter else Py.lower letter.
Proof.
  intros He Hm Hn Hs. unfold _parse_letter.
  rewrite (bool_decide_false _ He). cbv zeta.
  assert ((if isShift
           then match custom_shift_mapping self !! letter with
                | Some mapped => mapped
                | None => letter
                end
           else letter) = letter) as ->.
  { destruct isShift; [|done]. by rewrite Hm. }
  rewrite Hn. rewrite keypad_symbol_cases in Hs.
  repeat (case_bool_decide; [done|]). done.
Qed.

(** The translation of a label that the shift map sends to [mapped]. *)
Lemma parse_letter_mapped self letter mapped :
  letter ≠ pystr "Enter" ->
  custom_shift_mapping self !! letter = Some mapped ->
  Py.startswith mapped (pystr "Numpad") = false ->
  keypad_symbol mapped = None ->
  _parse_letter self letter true
  = if 1 <? len mapped then [] else Py.upper mapped.
Proof.
  intros He Hm Hn Hs. unfold _parse_letter.
  rewrite (bool_decide_false _ He). cbv zeta. rewrite Hm, Hn.
  rewrite keypad_symbol_cases in Hs.
  repeat (case_bool_decide; [done|]). by rewrite orb_true_r.
Qed.

Lemma single_not_dispatched (c : N) : [c] ∉ dispatched_labels.
Proof.
  unfold dispatched_labels. rewrite !not_elem_of_cons.
  repeat split; try (vm_compute; congruence). apply not_elem_of_nil.
Qed.

Lemma single_not_keypad (c : N) :
  Py.startswith [c] (pystr "Numpad") = false /\ keypad_symbol [c] = None.
Proof.
  split.
  - cbn. by rewrite andb_false_r.
  - rewrite keypad_symbol_cases.
    by repeat (rewrite bool_decide_false by (vm_compute; congruence)).
Qed.

Lemma upper_ascii (c : N) : (c < 128)%N -> Py.upper [c] = [ascii_upper c].
Proof.
  intros Hc. unfold Py.upper, Py.upper_char, ascii_upper. simpl.
  destruct ((97 <=? c)%N && (c <=? 122)%N); [done|].
  by rewrite (proj2 (N.ltb_lt c 128) Hc).
Qed.

Lemma lower_ascii (c : N) : (c < 128)%N -> Py.lower [c] = [ascii_lower c].
Proof.
  intros Hc. unfold Py.lower, Py.lower_char, ascii_lower. simpl.
  destruct ((65 <=? c)%N && (c <=? 90)%N); [done|].
  by rewrite (proj2 (N.ltb_lt c 128) Hc).
Qed.

Lemma not_paste_single (event : KeyboardEvent) (c : N) :
  key event = [c] -> (ctrl event = true -> c ≠ 86%N) ->
  ctrl event && bool_decide (key event = pystr "V") = false.
Proof.
  intros Hk Hc. destruct (ctrl event); [|done]. simpl.
  rewrite Hk. apply bool_decide_false. intros [= ->]. by apply Hc.
Qed.

(** X19. On a focused control with the cursor in range, an ASCII character
    key that the shift map does not touch inserts its character at the
    cursor and moves the cursor behind it: in upper case if caps is active
    or shift is held, in lower case otherwise. Ctrl makes no difference,
    except on the key V. *)
Theorem typing_inserts_the_character (clipboard : str) (self : CodeField)
    (event : KeyboardEvent) (c : N) :
  focused self = true ->
  cursor_ok self ->
  key event = [c] ->
  (c < 128)%N ->
  (ctrl event = true -> c ≠ 86%N) ->
  (shift event = true -> custom_shift_mapping self !! [c] = None) ->
  let typed := if is_caps self || shift event
               then ascii_upper c else ascii_lower c in
  text (on_keyboard_input clipboard self event)
  = take (Z.to_nat (type_point self)) (text self)
    ++ typed :: drop (Z.to_nat (type_point self)) (text self)
  /\ type_point (on_keyboard_input clipboard self event) = type_point self + 1.
Proof.
  intros Hf Hok Hk Hc Hctrl Hm typed.
  rewrite printable_key_unfold;
    [|done|rewrite Hk; apply single_not_dispatched|by eapply not_paste_single].
  rewrite Hk. destruct (single_not_keypad c) as [Hn Hs].
  rewrite parse_letter_plain; [|vm_compute; congruence|done..].
  change (1 <? len [c]) with false. cbv iota.
  assert ((if is_caps self || shift event then Py.upper [c] else Py.lower [c])
          = [typed]) as ->.
  { subst typed. rewrite upper_ascii, lower_ascii by done.
    by destruct (is_caps self || shift event). }
  rewrite bool_decide_false by done.
  by apply insert_letter_single.
Qed.

(** X20. On a focused control with the cursor in range, a one-character
    key with shift that the shift map sends to a character which is its own
    upper case inserts the mapped character at the cursor and moves the
    cursor behind it. *)
Theorem shift_inserts_the_mapped_character (clipboard : str)
    (self : CodeField) (event : KeyboardEvent) (c mapped : N) :
  focused self = true ->
  cursor_ok self ->
  key event = [c] ->
  shift event = true ->
  (ctrl event = true -> c ≠ 86%N) ->
  custom_shift_mapping self !! [c] = Some [mapped] ->
  Py.upper [mapped] = [mapped] ->
  text (on_keyboard_input clipboard self event)
  = take (Z.to_nat (type_point self)) (text self)
    ++ mapped :: drop (Z.to_nat (type_point self)) (text self)
  /\ type_point (on_keyboard_input clipboard self event) = type_point self + 1.
Proof.
  intros Hf Hok Hk Hs Hctrl Hm Hup.
  rewrite printable_key_unfold;
    [|done|rewrite Hk; apply single_not_dispatched|by eapply not_paste_single].
  rewrite Hk, Hs. destruct (single_not_keypad mapped) as [Hn Hsym].
  rewrite (parse_letter_mapped self [c] [mapped]);
    [|vm_compute; congruence|done..].
  change (1 <? len [mapped]) with false. cbv iota. rewrite Hup.
  rewrite bool_decide_false by done.
  by apply insert_letter_single.
Qed.

Lemma repeat_single (c : N) (n : Z) :
  Py.repeat [c] n = replicate (Z.to_nat n) c.
Proof.
  unfold Py.repeat. induction (Z.to_nat n) as [|k IH]; [done|].
  simpl. by rewrite IH.
Qed.

(** X21. On a focused control with the cursor in range, Tab inserts
    [tab_spacing] spaces at the cursor (none if [tab_spacing] is not
    positive) and moves the cursor behind them, provided the shift map does
    not touch the label "Tab" when shift is held. *)
Theorem tab_inserts_spaces (clipboard : str) (self : CodeField)
    (event : KeyboardEvent) :
  focused self = true ->
  cursor_ok self ->
  key event = pystr "Tab" ->
  (shift event = true -> custom_shift_mapping self !! pystr "Tab" = None) ->
  let n := Z.to_nat (tab_spacing self) in
  text (on_keyboard_input clipboard self event)
  = take (Z.to_nat (type_point self)) (text self)
    ++ replicate n 32%N ++ drop (Z.to_nat (type_point self)) (text self)
  /\ type_point (on_keyboard_input clipboard self event)
     = type_point self + Z.of_nat n.
Proof.
  intros Hf Hok Hk Hm n.
  unfold on_keyboard_input. rewrite Hf, Hk. simpl negb. cbv iota zeta.
  decide_key. rewrite andb_false_r. cbv iota.
  set (self' := insert_word self (Py.repeat SPACE (tab_spacing self))).
  assert (custom_shift_mapping self' = custom_shift_mapping self) as Hmap.
  { pose proof (insert_word_settings self (Py.repeat SPACE (tab_spacing self)))
      as Hs. unfold settings in Hs. by injection Hs. }
  rewrite parse_letter_plain;
    [|vm_compute; congruence|by rewrite Hmap|reflexivity|reflexivity].
  change (1 <? len (pystr "Tab")) with true. cbv iota.
  rewrite bool_decide_true by done.
  subst self'. unfold SPACE. rewrite repeat_single. fold n.
  destruct (insert_word_text self (replicate n 32%N) Hok) as [Ht Hp].
  rewrite Ht, Hp. unfold len. by rewrite length_replicate.
Qed.

Lemma line_count_insert (t : str) (b : nat) :
  line_count (take b t ++ [10%N] ++ drop b t) = S (line_count t).
Proof.
  unfold line_count. rewrite !filter_app, !length_app.
  rewrite <- (take_drop b t) at 3. rewrite filter_app, length_app.
  rewrite filter_cons_True by done. simpl. lia.
Qed.

(** X22. On a focused control that shows line numbers, Enter (not remapped
    by the shift map) makes the text one character longer and adds one line
    number: the labels run from 1 to one more than the number of lines the
    text had. This holds wherever the cursor is. *)
Theorem enter_adds_a_line_number (clipboard : str) (self : CodeField)
    (event : KeyboardEvent) :
  focused self = true ->
  key event = pystr "Enter" ->
  (shift event = true -> custom_shift_mapping self !! NEWLINE = None) ->
  show_line_numbers self = true ->
  line_numbers_controls (on_keyboard_input clipboard self event)
  = Z.of_nat <$> seq 1 (S (line_count (text self)))
  /\ length (text (on_keyboard_input clipboard self event))
     = S (length (text self)).
Proof.
  intros Hf Hk Hm Hshow.
  assert (_parse_letter self (pystr "Enter") (shift event) = NEWLINE) as Hparse.
  { unfold _parse_letter.
    rewrite (bool_decide_true (pystr "Enter" = pystr "Enter")) by done.
    cbv zeta.
    assert ((if shift event
             then match custom_shift_mapping self !! NEWLINE with
                  | Some mapped => mapped
                  | None => NEWLINE
                  end
             else NEWLINE) = NEWLINE) as ->.
    { destruct (shift event); [|done]. by rewrite Hm. }
    by destruct (is_caps self || shift event). }
  rewrite printable_key_unfold; [|done| |].
  2:{ rewrite Hk. unfold dispatched_labels. rewrite !not_elem_of_cons.
      repeat split; try (vm_compute; congruence). apply not_elem_of_nil. }
  2:{ rewrite Hk. rewrite (bool_decide_false (pystr "Enter" = pystr "V"))
        by (vm_compute; congruence). apply andb_false_r. }
  rewrite Hk, Hparse. rewrite bool_decide_false by done.
  unfold NEWLINE. rewrite insert_letter_unfold.
  set (s' := set_type_point _ _).
  assert (text s' = take (Py.slice_bound (len (text self)) (type_point self)) (text self)
                    ++ [10%N]
                    ++ drop (Py.slice_bound (len (text self)) (type_point self)) (text self))
    as Ht by done.
  destruct (update_controls_rendered s') as (_ & _ & Hlines).
  cbn [line_numbers_controls text emit].
  rewrite Hlines
    by (rewrite (proj2 (update_controls_flags s')); exact Hshow).
  rewrite update_controls_text, Ht.
  split; [by rewrite line_count_insert|].
  rewrite !length_app, length_take, length_drop. simpl.
  pose proof (slice_bound_le (len (text self)) (type_point self) (len_nonneg _)) as Hb.
  unfold len in Hb. lia.
Qed.

Lemma replace_keypad_single (c : N) :
  Py.replace (pystr "Numpad " ++ [c]) (pystr "Numpad ") [] = [c].
Proof.
  unfold Py.replace. cbn. by rewrite andb_false_r.
Qed.

(** X23. On a focused control with the cursor in range, the keypad label
    "Numpad " followed by an ASCII character, not touched by the shift map,
    inserts that character like the bare key does; a keypad digit is
    inserted as it is, whatever the modifiers and the caps state. *)
Theorem keypad_inserts_the_character (clipboard : str) (self : CodeField)
    (event : KeyboardEvent) (c : N) :
  focused self = true ->
  cursor_ok self ->
  key event = pystr "Numpad " ++ [c] ->
  (c < 128)%N ->
  (shift event = true -> custom_shift_mapping self !! key event = None) ->
  let typed := if is_caps self || shift event
               then ascii_upper c else ascii_lower c in
  text (on_keyboard_input clipboard self event)
  = take (Z.to_nat (type_point self)) (text self)
    ++ typed :: drop (Z.to_nat (type_point self)) (text self)
  /\ type_point (on_keyboard_input clipboard self event) = type_point self + 1
  /\ ((48 <= c <= 57)%N -> typed = c).
Proof.
  intros Hf Hok Hk Hc Hm typed.
  assert (_parse_letter self (key event) (shift event) = [typed]) as Hparse.
  { unfold _parse_letter. rewrite Hk in *.
    rewrite (bool_decide_false (pystr "Numpad " ++ [c] = pystr "Enter"))
      by (vm_compute; congruence).
    cbv zeta.
    assert ((if shift event
             then match custom_shift_mapping self !! (pystr "Numpad " ++ [c]) with
                  | Some mapped => mapped
                  | None => pystr "Numpad " ++ [c]
                  end
             else pystr "Numpad " ++ [c]) = pystr "Numpad " ++ [c]) as ->.
    { destruct (shift event); [|done]. by rewrite Hm. }
    change (Py.startswith (pystr "Numpad " ++ [c]) (pystr "Numpad")) with true.
    cbv iota. rewrite replace_keypad_single.
    repeat (rewrite bool_decide_false by (vm_compute; congruence)).
    change (1 <? len [c]) with false. cbv iota.
    subst typed. rewrite upper_ascii, lower_ascii by done.
    by destruct (is_caps self || shift event). }
  rewrite printable_key_unfold; [|done| |].
  2:{ rewrite Hk. unfold dispatched_labels. rewrite !not_elem_of_cons.
      repeat split; try (vm_compute; congruence). apply not_elem_of_nil. }
  2:{ rewrite Hk. rewrite (bool_decide_false (pystr "Numpad " ++ [c] = pystr "V"))
        by (vm_compute; congruence). apply andb_false_r. }
  rewrite Hparse. rewrite bool_decide_false by done.
  destruct (insert_letter_single self typed Hok) as [Ht Hp].
  split; [exact Ht|]. split; [exact Hp|].
  intros Hdigit. subst typed. unfold ascii_upper, ascii_lower.
  assert ((97 <=? c)%N = false) as -> by (apply N.leb_gt; lia).
  assert ((c <=? 90)%N && true = true) as _ by (rewrite andb_true_r; apply N.leb_le; lia).
  assert ((65 <=? c)%N = false) as -> by (apply N.leb_gt; lia).
  simpl. by destruct (is_caps self || shift event).
Qed.

End Typing.

(** ** The further properties on concrete inputs *)

Lemma ab_cursor_ok : cursor_ok (editing (pystr "ab") 1).
Proof. unfold cursor_ok, len. simpl. lia. Defined.

(** X1 on "abc" and the character "x": with the cursor at 2, with the
    cursor at 7 beyond the end, and with the cursor at -1. *)
Lemma insert_letter_abc_positions :
  text (insert_letter (H:=ascii_case) (editing (pystr "abc") 2) [120%N])
  = pystr "abxc"
  /\ text (insert_letter (H:=ascii_case) (editing (pystr "abc") 7) [120%N])
     = pystr "abcx"
  /\ text (insert_letter (H:=ascii_case) (editing (pystr "abc") (-1)) [120%N])
     = pystr "abxc".
Proof.
  split; [|split].
  - destruct (insert_letter_grows_by_one (H:=ascii_case)
                (editing (pystr "abc") 2) []) as [Hpos _].
    destruct (Hpos 120%N) as (Hin & _ & _).
    apply Hin. unfold len. simpl. lia.
  - destruct (insert_letter_grows_by_one (H:=ascii_case)
                (editing (pystr "abc") 7) []) as [Hpos _].
    destruct (Hpos 120%N) as (_ & Hbeyond & _).
    apply Hbeyond. unfold len. simpl. lia.
  - destruct (insert_letter_grows_by_one (H:=ascii_case)
                (editing (pystr "abc") (-1)) []) as [Hpos _].
    destruct (Hpos 120%N) as (_ & _ & Hneg).
    apply Hneg. simpl. lia.
Defined.

(** X2 on "ab" with the cursor at 1 and the character "x". *)
Lemma insert_then_remove_ab :
  text (remove_letter (H:=ascii_case)
          (insert_letter (H:=ascii_case) (editing (pystr "ab") 1) [120%N]))
  = pystr "ab"
  /\ type_point (remove_letter (H:=ascii_case)
                   (insert_letter (H:=ascii_case) (editing (pystr "ab") 1) [120%N]))
     = 1.
Proof.
  exact (insert_then_remove (H:=ascii_case) (editing (pystr "ab") 1) 120
           ab_cursor_ok).
Defined.

(** X3 on "ab" with the cursor at 1, behind the "a". *)
Lemma remove_then_insert_ab :
  text (insert_letter (H:=ascii_case)
          (remove_letter (H:=ascii_case) (editing (pystr "ab") 1)) [97%N])
  = pystr "ab"
  /\ type_point (insert_letter (H:=ascii_case)
                   (remove_letter (H:=ascii_case) (editing (pystr "ab") 1)) [97%N])
     = 1.
Proof.
  apply (remove_then_insert (H:=ascii_case) (editing (pystr "ab") 1) 97).
  - unfold len. simpl. lia.
  - reflexivity.
Defined.

(** X4 on "abc": the text becomes "ababc". *)
Lemma remove_letter_at_start_abc :
  text (remove_letter (H:=ascii_case) (editing (pystr "abc") 0)) = pystr "ababc"
  /\ type_point (remove_letter (H:=ascii_case) (editing (pystr "abc") 0)) = 0.
Proof.
  destruct (remove_letter_at_start_grows (H:=ascii_case)
              (editing (pystr "abc") 0) eq_refl) as (Ht & Hp & _).
  exact (conj Ht Hp).
Defined.

(** X6 on "ab" with the cursor at 1 and the word "xyz". *)
Lemma insert_word_then_remove_ab :
  text (Nat.iter 3 (remove_letter (H:=ascii_case))
          (insert_word (H:=ascii_case) (editing (pystr "ab") 1) (pystr "xyz")))
  = pystr "ab"
  /\ type_point (Nat.iter 3 (remove_letter (H:=ascii_case))
                   (insert_word (H:=ascii_case) (editing (pystr "ab") 1)
                      (pystr "xyz")))
     = 1.
Proof.
  exact (insert_word_then_remove (H:=ascii_case) (editing (pystr "ab") 1)
           (pystr "xyz") ab_cursor_ok).
Defined.

(** X7 on "hello world" with Up. *)
Lemma arrows_move_only_the_cursor_up :
  exists z, 0 <= z <= 11
    /\ on_keyboard_input (H:=ascii_case) [] (editing hello_world 11)
         (key_event "Arrow Up" false false)
       = assign_type_point z (editing hello_world 11).
Proof.
  apply (arrows_move_only_the_cursor (H:=ascii_case) []
           (editing hello_world 11) (key_event "Arrow Up" false false)).
  - reflexivity.
  - unfold arrow_labels. do 2 apply list_elem_of_further.
    apply list_elem_of_here.
Defined.

(** X8 on "ab" with the cursor at 1, in both orders. *)
Lemma left_right_round_trip_ab :
  on_keyboard_input (H:=ascii_case) []
    (on_keyboard_input (H:=ascii_case) [] (editing (pystr "ab") 1)
       (key_event "Arrow Right" false false))
    (key_event "Arrow Left" false false)
  = editing (pystr "ab") 1
  /\ on_keyboard_input (H:=ascii_case) []
       (on_keyboard_input (H:=ascii_case) [] (editing (pystr "ab") 1)
          (key_event "Arrow Left" false false))
       (key_event "Arrow Right" false false)
     = editing (pystr "ab") 1.
Proof.
  destruct (left_right_round_trip (H:=ascii_case) [] (editing (pystr "ab") 1)
              (key_event "Arrow Left" false false)
              (key_event "Arrow Right" false false)
              eq_refl ab_cursor_ok eq_refl eq_refl eq_refl eq_refl)
    as (Hrl & Hlr & _).
  split.
  - apply Hrl. unfold len. simpl. lia.
  - apply Hlr. simpl. lia.
Defined.

Lemma two_lines_newline : last_before 10 two_lines 3 1.
Proof.
  repeat split; [lia|]. intros j Hj.
  do 3 (destruct j as [|j]; [first [lia | by vm_compute]|]). lia.
Defined.

(** X9 on "a\nb" with the cursor at the end: Up moves it to 1. *)
Lemma arrow_up_two_lines :
  on_keyboard_input (H:=ascii_case) [] (editing two_lines 3)
    (key_event "Arrow Up" false false)
  = editing two_lines 1.
Proof.
  destruct (arrow_up_to_newline (H:=ascii_case) [] (editing two_lines 3)
              (key_event "Arrow Up" false false) eq_refl eq_refl
              (editing_cursor_ok two_lines 3 ltac:(simpl; lia)))
    as [Hfound _].
  exact (Hfound 1%nat two_lines_newline).
Defined.

(** X10 on "a\nb" with the cursor at 0: Down moves it to 1. *)
Lemma arrow_down_two_lines :
  on_keyboard_input (H:=ascii_case) [] (editing two_lines 0)
    (key_event "Arrow Down" false false)
  = editing two_lines 1.
Proof.
  destruct (arrow_down_target (H:=ascii_case) [] (editing two_lines 0)
              (key_event "Arrow Down" false false) eq_refl eq_refl
              (editing_cursor_ok two_lines 0 ltac:(simpl; lia)))
    as [Hfound _].
  apply (Hfound 1%nat). split; [reflexivity|].
  intros j Hj. destruct j as [|j]; [by vm_compute|lia].
Defined.

(** X11 on "hello world" with the cursor at 5: Left does not move it
    forward and Down does not move it backward. *)
Lemma arrows_keep_their_direction_hello :
  type_point (on_keyboard_input (H:=ascii_case) [] (editing hello_world 5)
                (key_event "Arrow Left" true false)) <= 5
  /\ 5 <= type_point (on_keyboard_input (H:=ascii_case) []
                        (editing hello_world 5)
                        (key_event "Arrow Down" false false)).
Proof.
  split.
  - apply (arrows_keep_their_direction (H:=ascii_case) []
             (editing hello_world 5) (key_event "Arrow Left" true false)
             eq_refl (editing_cursor_ok hello_world 5 ltac:(simpl; lia))).
    apply list_elem_of_here.
  - apply (arrows_keep_their_direction (H:=ascii_case) []
             (editing hello_world 5) (key_event "Arrow Down" false false)
             eq_refl (editing_cursor_ok hello_world 5 ltac:(simpl; lia))).
    apply list_elem_of_further, list_elem_of_here.
Defined.

(** X12 on "hello world" with the cursor at 6. *)
Lemma arrow_left_makes_progress_hello :
  0 <= type_point (on_keyboard_input (H:=ascii_case) [] (editing hello_world 6)
                     (key_event "Arrow Left" true false)) < 6.
Proof.
  apply (arrow_left_makes_progress (H:=ascii_case) [] (editing hello_world 6)
           (key_event "Arrow Left" true false) eq_refl eq_refl
           (editing_cursor_ok hello_world 6 ltac:(simpl; lia))).
  simpl. lia.
Defined.

(** X13 on "hello world" with the cursor at 8: "rld" stays. *)
Lemma word_delete_keeps_rld :
  get_text_after_point
    (on_keyboard_input (H:=ascii_case) [] (editing hello_world 8)
       (key_event "Backspace" true false))
  = pystr "rld".
Proof.
  destruct (word_delete_keeps_text_after_cursor (H:=ascii_case) []
              (editing hello_world 8) (key_event "Backspace" true false)
              eq_refl eq_refl eq_refl
              (editing_cursor_ok hello_world 8 ltac:(simpl; lia)))
    as [Hafter _].
  exact Hafter.
Defined.

(** X14 on "ab": after Escape the keys "x" and Backspace change nothing. *)
Lemma escape_unfocuses_for_good_ab :
  feed (H:=ascii_case)
    (on_keyboard_input (H:=ascii_case) [] (editing (pystr "ab") 1)
       (key_event "Escape" false false))
    [(key_event "x" false false, []); (key_event "Backspace" false false, [])]
  = on_keyboard_input (H:=ascii_case) [] (editing (pystr "ab") 1)
      (key_event "Escape" false false).
Proof.
  destruct (escape_unfocuses_for_good (H:=ascii_case) []
              (editing (pystr "ab") 1) (key_event "Escape" false false)
              [(key_event "x" false false, []);
               (key_event "Backspace" false false, [])]
              eq_refl eq_refl) as [Hfeed _].
  exact Hfeed.
Defined.

(** X18 on the empty text and the text of one space, which get the same
    markdown: both are shown as one space. *)
Lemma code_block_of_empty_and_space :
  shown_text [] = shown_text SPACE.
Proof.
  destruct (code_block_determines_text (H:=ascii_case) default_CodeField
              [] SPACE) as [_ Hshown].
  apply Hshown. reflexivity.
Defined.

(** X19 on "ab" with the cursor at 1: the key "x" under caps. *)
Lemma typing_x_under_caps :
  text (on_keyboard_input (H:=ascii_case) []
          (set_is_caps true (editing (pystr "ab") 1))
          (key_event "x" false false))
  = pystr "aXb"
  /\ type_point (on_keyboard_input (H:=ascii_case) []
                   (set_is_caps true (editing (pystr "ab") 1))
                   (key_event "x" false false))
     = 2.
Proof.
  apply (typing_inserts_the_character (H:=ascii_case) []
           (set_is_caps true (editing (pystr "ab") 1))
           (key_event "x" false false) 120 eq_refl ab_cursor_ok eq_refl).
  - reflexivity.
  - intros _. discriminate.
  - intros Hs. discriminate Hs.
Defined.

(** X20 on "ab" with the cursor at 1: shift and "3" under the default map
    insert the pound sign. *)
Lemma shift_3_inserts_pound :
  text (on_keyboard_input (H:=ascii_case) [] (editing (pystr "ab") 1)
          (key_event "3" false true))
  = [97; 163; 98]%N
  /\ type_point (on_keyboard_input (H:=ascii_case) [] (editing (pystr "ab") 1)
                   (key_event "3" false true))
     = 2.
Proof.
  apply (shift_inserts_the_mapped_character (H:=ascii_case) []
           (editing (pystr "ab") 1) (key_event "3" false true) 51 163
           eq_refl ab_cursor_ok eq_refl eq_refl).
  - intros Hc. discriminate Hc.
  - by vm_compute.
  - reflexivity.
Defined.

(** X21 on "ab" with the cursor at 1 and the default four spaces. *)
Lemma tab_inserts_four_spaces :
  text (on_keyboard_input (H:=ascii_case) [] (editing (pystr "ab") 1)
          (key_event "Tab" false false))
  = pystr "a    b"
  /\ type_point (on_keyboard_input (H:=ascii_case) [] (editing (pystr "ab") 1)
                   (key_event "Tab" false false))
     = 5.
Proof.
  apply (tab_inserts_spaces (H:=ascii_case) [] (editing (pystr "ab") 1)
           (key_event "Tab" false false) eq_refl ab_cursor_ok eq_refl).
  intros Hs. discriminate Hs.
Defined.

(** X22 on "ab" with the cursor at 1: Enter gives the labels 1 and 2. *)
Lemma enter_adds_a_line_number_ab :
  line_numbers_controls
    (on_keyboard_input (H:=ascii_case) [] (editing (pystr "ab") 1)
       (key_event "Enter" false false))
  = [1; 2]
  /\ length (text (on_keyboard_input (H:=ascii_case) []
                     (editing (pystr "ab") 1)
                     (key_event "Enter" false false)))
     = 3%nat.
Proof.
  apply (enter_adds_a_line_number (H:=ascii_case) [] (editing (pystr "ab") 1)
           (key_event "Enter" false false) eq_refl eq_refl).
  - intros Hs. discriminate Hs.
  - reflexivity.
Defined.

(** X23 on "ab" with the cursor at 1: "Numpad 7" with shift and caps. *)
Lemma keypad_7_inserts_7 :
  text (on_keyboard_input (H:=ascii_case) []
          (set_is_caps true (editing (pystr "ab") 1))
          (key_event "Numpad 7" false true))
  = pystr "a7b".
Proof.
  destruct (keypad_inserts_the_character (H:=ascii_case) []
              (set_is_caps true (editing (pystr "ab") 1))
              (key_event "Numpad 7" false true) 55 eq_refl ab_cursor_ok eq_refl
              ltac:(reflexivity) ltac:(intros _; by vm_compute))
    as (Ht & _ & _).
  exact Ht.
Defined.
